(** * mcp_server_neurolorap.server: a shallow embedding

    The module [server.py] has three functions: [get_project_root], the
    tool entrypoint [code_collector] registered by [create_server], and
    the developer terminal [run_dev_mode].  They are embedded here as
    functions in a small state-and-exception monad over an explicit
    world (process environment, working directory, and whatever state the
    collaborators [CodeCollector] and [JsonRpcTerminal] own). *)

From Stdlib Require Import String Ascii ZArith List Lia.
From stdpp Require Import base option list gmap strings pretty.
Import ListNotations.
Local Open Scope string_scope.
Local Open Scope list_scope.

(** ** Exceptions

    An exception instance is known through the classes it is an instance
    of (its method resolution order) and through [str(e)]. Most have a
    message, and [str(e)] returns it: these are the values of [exn]. The
    [__str__] of an exception may also raise; [raised] has both kinds. *)

Inductive exn_class :=
| BaseException
| Exception
| KeyboardInterrupt
| EOFError
| ValueError
| TypeError
| OSError
| FileNotFoundError
| PermissionError
| UserClass (name : string).

#[global] Instance exn_class_eq_dec : EqDecision exn_class.
Proof. solve_decision. Defined.

Record exn := mk_exn { exn_mro : list exn_class; exn_str : string }.

(** Anything a [raise] can carry: an exception with a message, or one
    of the given classes whose [__str__] raises [by_str]. *)
Inductive raised :=
| Printable (e : exn)
| Unprintable (mro : list exn_class) (by_str : raised).

Coercion Printable : exn >-> raised.

Definition raised_mro (r : raised) : list exn_class :=
  match r with
  | Printable e => exn_mro e
  | Unprintable mro _ => mro
  end.

Definition isinstance (r : raised) (c : exn_class) : bool :=
  bool_decide (c ∈ raised_mro r).

(** The linearisation of the built-in classes; a [UserClass] made with
    [new_exn] derives directly from [Exception]. *)
Definition builtin_mro (c : exn_class) : list exn_class :=
  match c with
  | BaseException => [BaseException]
  | Exception => [Exception; BaseException]
  | KeyboardInterrupt => [KeyboardInterrupt; BaseException]
  | EOFError => [EOFError; Exception; BaseException]
  | ValueError => [ValueError; Exception; BaseException]
  | TypeError => [TypeError; Exception; BaseException]
  | OSError => [OSError; Exception; BaseException]
  | FileNotFoundError => [FileNotFoundError; OSError; Exception; BaseException]
  | PermissionError => [PermissionError; OSError; Exception; BaseException]
  | UserClass n => [UserClass n; Exception; BaseException]
  end.

Definition new_exn (c : exn_class) (msg : string) : exn :=
  mk_exn (builtin_mro c) msg.

(** [asyncio.CancelledError] and [SystemExit] derive from [BaseException]
    only; [io.UnsupportedOperation] derives from both [OSError] and
    [ValueError]. *)
Definition CancelledError : exn :=
  mk_exn [UserClass "CancelledError"; BaseException] "".
Definition UnsupportedOperation (msg : string) : exn :=
  mk_exn [UserClass "UnsupportedOperation"; OSError; ValueError;
          Exception; BaseException] msg.

Inductive result (A : Type) :=
| Ok (a : A)
| Raise (e : raised).
Arguments Ok {A} a.
Arguments Raise {A} e.

(** [str(e)], also what [{e}] in an f-string evaluates. *)
Definition str_of_raised (r : raised) : result string :=
  match r with
  | Printable e => Ok (exn_str e)
  | Unprintable _ by_str => Raise by_str
  end.

(** ** pathlib (POSIX flavour)

    [Path(s)] keeps a root ([""], ["/"] or ["//"]) and the components of
    [s] that are neither empty nor ["."]; [str(p)] joins them again and is
    ["."] for the empty path. *)

Record Path := mk_Path { path_root : string; path_parts : list string }.

Definition sep : ascii := "/"%char.

(** [s.split("/")] *)
Fixpoint split_sep (s : string) : list string :=
  match s with
  | EmptyString => [EmptyString]
  | String c s' =>
      if Ascii.eqb c sep then EmptyString :: split_sep s'
      else match split_sep s' with
           | x :: xs => String c x :: xs
           | [] => [String c EmptyString]
           end
  end.

(** [s.lstrip("/")] *)
Fixpoint lstrip_sep (s : string) : string :=
  match s with
  | String c s' => if Ascii.eqb c sep then lstrip_sep s' else s
  | EmptyString => EmptyString
  end.

Definition is_component (x : string) : bool :=
  negb (String.eqb x "") && negb (String.eqb x ".").

Definition splitroot (part : string) : string * string :=
  let stripped := lstrip_sep part in
  let n := (String.length part - String.length stripped)%nat in
  if Nat.eqb n 0 then ("", part)
  else if Nat.eqb n 2 then ("//", stripped)
  else ("/", stripped).

Definition Path_of_str (s : string) : Path :=
  let '(root, rel) := splitroot s in
  mk_Path root (List.filter is_component (split_sep rel)).

Definition str_of_Path (p : Path) : string :=
  let s := path_root p +:+ String.concat "/" (path_parts p) in
  if String.eqb s "" then "." else s.

(** ** Python values

    Payloads typed [Any] in the source.  A dictionary keeps its items in
    insertion order (it is printed in that order); an object of any other
    class is known through its truth value and what [str] and [repr] give
    or raise on it. *)

#[local] Set Warnings "-register-all".
Inductive pyval :=
| VNone
| VBool (b : bool)
| VInt (n : Z)
| VStr (s : string)
| VPath (p : Path)
| VList (l : list pyval)
| VDict (d : list (string * pyval))
| VObject (truth : bool) (str_ repr_ : result string).

Abbreviation pydict := (list (string * pyval)).

Definition py_truthy (v : pyval) : bool :=
  match v with
  | VNone => false
  | VBool b => b
  | VInt n => negb (Z.eqb n 0)
  | VStr s => negb (String.eqb s "")
  | VPath _ => true
  | VList l => match l with [] => false | _ => true end
  | VDict d => match d with [] => false | _ => true end
  | VObject t _ _ => t
  end.

(** [key in d], [d.get(key)] *)
Fixpoint dict_get (d : pydict) (key : string) : option pyval :=
  match d with
  | [] => None
  | (k, v) :: d' => if String.eqb k key then Some v else dict_get d' key
  end.

Definition dict_contains (d : pydict) (key : string) : bool :=
  match dict_get d key with Some _ => true | None => false end.

Definition is_None (v : pyval) : bool :=
  match v with VNone => true | _ => false end.

(** [repr] of a [str] whose text is ASCII: single quotes unless the text
    has a single quote and no double quote; the quote, the backslash and
    the control characters are escaped. Text outside ASCII is not
    modelled: bytes above 127 are kept as they are, where Python escapes
    the characters it does not hold printable. *)
Definition hex_digit (n : N) : ascii :=
  match n with
  | 0 => "0" | 1 => "1" | 2 => "2" | 3 => "3" | 4 => "4" | 5 => "5"
  | 6 => "6" | 7 => "7" | 8 => "8" | 9 => "9" | 10 => "a" | 11 => "b"
  | 12 => "c" | 13 => "d" | 14 => "e" | _ => "f"
  end%N%char.

Fixpoint string_contains_char (c : ascii) (s : string) : bool :=
  match s with
  | EmptyString => false
  | String c' s' => Ascii.eqb c c' || string_contains_char c s'
  end.

Definition escape_char (quote c : ascii) : string :=
  let n := N_of_ascii c in
  if Ascii.eqb c quote || Ascii.eqb c "\"%char then String "\" (String c "")
  else if (n =? 9)%N then "\t"
  else if (n =? 10)%N then "\n"
  else if (n =? 13)%N then "\r"
  else if (n <? 32)%N || (n =? 127)%N then
    String "\" (String "x" (String (hex_digit (n / 16)) (String (hex_digit (n mod 16)) "")))
  else String c "".

Fixpoint escape_string (quote : ascii) (s : string) : string :=
  match s with
  | EmptyString => EmptyString
  | String c s' => escape_char quote c +:+ escape_string quote s'
  end.

Definition dquote : ascii := "034"%char.

Definition str_repr (s : string) : string :=
  let quote :=
    if string_contains_char "'" s && negb (string_contains_char dquote s)
    then dquote else "'"%char in
  String quote (escape_string quote s +:+ String quote "").

(** [repr(v)] and [str(v)]; items are rendered left to right and the
    first failure is the failure of the whole. *)
Definition result_bind {A B} (r : result A) (f : A -> result B) : result B :=
  match r with
  | Ok a => f a
  | Raise e => Raise e
  end.

Fixpoint py_repr (v : pyval) : result string :=
  match v with
  | VNone => Ok "None"
  | VBool b => Ok (if b then "True" else "False")
  | VInt n => Ok (pretty n)
  | VStr s => Ok (str_repr s)
  | VPath p => Ok ("PosixPath(" +:+ str_repr (str_of_Path p) +:+ ")")
  | VList l =>
      let items :=
        (fix items (l : list pyval) : result (list string) :=
           match l with
           | [] => Ok []
           | x :: l' =>
               result_bind (py_repr x) (fun s =>
               result_bind (items l') (fun ss => Ok (s :: ss)))
           end) l in
      result_bind items (fun ss => Ok ("[" +:+ String.concat ", " ss +:+ "]"))
  | VDict d =>
      let items :=
        (fix items (d : list (string * pyval)) : result (list string) :=
           match d with
           | [] => Ok []
           | (k, x) :: d' =>
               result_bind (py_repr x) (fun s =>
               result_bind (items d') (fun ss =>
               Ok ((str_repr k +:+ ": " +:+ s) :: ss)))
           end) d in
      result_bind items (fun ss => Ok ("{" +:+ String.concat ", " ss +:+ "}"))
  | VObject _ _ r => r
  end.

Definition py_str (v : pyval) : result string :=
  match v with
  | VStr s => Ok s
  | VPath p => Ok (str_of_Path p)
  | VObject _ s _ => s
  | _ => py_repr v
  end.

(** ** The world and the monad

    [os.environ] is a finite map; [os.getcwd()] is what the operating
    system answers, a string or an exception (the directory may have been
    removed); [ext] is the state owned by the collaborators (file
    system, console input, the terminal object). A computation takes a
    world to a world, the events it emitted in order, and a value or a
    raised exception. *)

Record world (X : Type) := mk_world {
  environ : gmap string string;
  getcwd : result string;
  ext : X
}.
Arguments mk_world {X} _ _ _.
Arguments environ {X} _.
Arguments getcwd {X} _.
Arguments ext {X} _.

Inductive log_level := DEBUG | INFO | WARNING | ERROR.

(** [str | list[str]] *)
Inductive input_path_t :=
| OnePath (p : string)
| PathList (ps : list string).

Definition pyval_of_input_path (i : input_path_t) : pyval :=
  match i with
  | OnePath p => VStr p
  | PathList ps => VList (map VStr ps)
  end.

Definition pyval_of_opt_str (o : option string) : pyval :=
  match o with
  | Some s => VStr s
  | None => VNone
  end.

(** What the program does to its surroundings. A logging call records the
    format string and its arguments as passed (the logging module formats
    them later), and the exception in flight when [exc_info=True]. *)
Inductive event :=
| EvInput (prompt : string)
| EvPrint (text : string)
| EvLog (lvl : log_level) (fmt : string) (args : list pyval)
        (exc_info : option raised)
| EvParseRequest (line : string)
| EvHandleCommand (request : pydict)
| EvCodeCollector (project_root : Path) (subproject_id : option string)
| EvCollectCode (input_path : input_path_t) (title : string).

Definition M (X A : Type) : Type :=
  world X -> world X * list event * result A.

Definition ret {X A} (a : A) : M X A := fun w => (w, [], Ok a).

Definition bind {X A B} (m : M X A) (f : A -> M X B) : M X B :=
  fun w =>
    match m w with
    | (w1, t1, Ok a) =>
        match f a w1 with
        | (w2, t2, r) => (w2, t1 ++ t2, r)
        end
    | (w1, t1, Raise e) => (w1, t1, Raise e)
    end.

Definition raise {X A} (e : raised) : M X A := fun w => (w, [], Raise e).

(** [try: m  except BaseException as e: h e] *)
Definition try_except {X A} (m : M X A) (h : raised -> M X A) : M X A :=
  fun w =>
    match m w with
    | (w1, t1, Ok a) => (w1, t1, Ok a)
    | (w1, t1, Raise e) =>
        match h e w1 with
        | (w2, t2, r) => (w2, t1 ++ t2, r)
        end
    end.

Definition emit {X} (ev : event) : M X unit := fun w => (w, [ev], Ok tt).

(** Lifting a value that may have raised ([str(x)], [format(x)]). *)
Definition lift {X A} (r : result A) : M X A := fun w => (w, [], r).

Declare Scope py_scope.
Delimit Scope py_scope with py.
Notation "x <- m ;; k" := (bind m (fun x => k))
  (at level 100, m at next level, right associativity) : py_scope.
Notation "m ;;; k" := (bind m (fun _ => k))
  (at level 100, right associativity) : py_scope.

Definition world_of {X A} (r : world X * list event * result A) : world X :=
  fst (fst r).
Definition trace_of {X A} (r : world X * list event * result A) : list event :=
  snd (fst r).
Definition value_of {X A} (r : world X * list event * result A) : result A :=
  snd r.

Definition print {X} (text : string) : M X unit := emit (EvPrint text).

(** [print(v)] for a value of any class: [str(v)] is computed first. *)
Definition py_print {X} (v : pyval) : M X unit :=
  bind (lift (py_str v)) print.

Definition log {X} (lvl : log_level) (fmt : string) (args : list pyval)
    (exc_info : option raised) : M X unit :=
  emit (EvLog lvl fmt args exc_info).

Definition nl : string := String "010"%char "".

(** A call into code outside this module: the call is recorded, then the
    callee runs on the world. *)
Definition call {X A} (ev : event) (f : world X -> world X * result A)
  : M X A :=
  fun w => match f w with (w', r) => (w', [ev], r) end.

(** [Path.cwd()], that is [Path(os.getcwd())]. *)
Definition Path_cwd {X} : M X Path :=
  fun w =>
    match getcwd w with
    | Ok dir => (w, [], Ok (Path_of_str dir))
    | Raise e => (w, [], Raise e)
    end.

Definition environ_get {X} (key : string) : M X (option string) :=
  fun w => (w, [], Ok (environ w !! key)).

Definition environ_set {X} (key value : string) : M X unit :=
  fun w => (mk_world (<[key := value]> (environ w)) (getcwd w) (ext w), [], Ok tt).

Inductive ctl := Continue | Break.

Section Server.
Context {X : Type}.
Local Open Scope py_scope.

(** The collaborators: [CodeCollector] and its method [collect_code]
    (module [collector]), the built-in [input], and the methods
    [parse_request] and [handle_command] of the [JsonRpcTerminal]
    instance (module [terminal]). *)
Variable Collector : Type.
Variable CodeCollector :
  Path -> option string -> world X -> world X * result Collector.
Variable collect_code :
  Collector -> input_path_t -> string -> world X -> world X * result pyval.
Variable py_input : string -> world X -> world X * result string.
Variable parse_request : string -> world X -> world X * result (option pydict).
Variable handle_command : pydict -> world X -> world X * result pydict.

Definition get_project_root : M X Path :=
  current_dir <- Path_cwd ;;
  project_root_str <- environ_get "MCP_PROJECT_ROOT" ;;
  let use_current_dir :=
    (environ_set "MCP_PROJECT_ROOT" (str_of_Path current_dir) ;;;
     log INFO "Set MCP_PROJECT_ROOT to: %s" [VPath current_dir] None ;;;
     ret current_dir) in
  match project_root_str with
  | None => use_current_dir
  | Some s =>
      if String.eqb s "" then use_current_dir
      else ret (Path_of_str s)
  end.

(** The [except] clauses of [code_collector], in the order written. *)
Definition code_collector_except (e : raised) : M X string :=
  if isinstance e FileNotFoundError || isinstance e PermissionError
     || isinstance e OSError then
    shown <- lift (str_of_raised e) ;;
    let error_msg := "File system error collecting code: " +:+ shown in
    log WARNING error_msg [] None ;;;
    ret error_msg
  else if isinstance e ValueError then
    shown <- lift (str_of_raised e) ;;
    let error_msg := "Invalid input: " +:+ shown in
    log WARNING error_msg [] None ;;;
    ret error_msg
  else if isinstance e TypeError then
    shown <- lift (str_of_raised e) ;;
    let error_msg := "Type error: " +:+ shown in
    log WARNING error_msg [] None ;;;
    ret error_msg
  else if isinstance e Exception then
    shown <- lift (str_of_raised e) ;;
    let error_msg := "Unexpected error collecting code: " +:+ shown in
    log ERROR error_msg [] (Some e) ;;;
    ret "An unexpected error occurred. Check server logs."
  else raise e.

Definition code_collector (input_path : input_path_t) (title : string)
    (subproject_id : option string) : M X string :=
  log DEBUG "Tool call: code-collector" [] None ;;;
  log DEBUG "Arguments: input=%s, title=%s, subproject_id=%s"
    [pyval_of_input_path input_path; VStr title;
     pyval_of_opt_str subproject_id] None ;;;
  try_except
    (root_path <- get_project_root ;;
     collector <- call (EvCodeCollector root_path subproject_id)
                    (CodeCollector root_path subproject_id) ;;
     log INFO "Starting code collection" [] None ;;;
     log DEBUG "Input: %s" [pyval_of_input_path input_path] None ;;;
     log DEBUG "Title: %s" [VStr title] None ;;;
     log DEBUG "Subproject ID: %s" [pyval_of_opt_str subproject_id] None ;;;
     output_file <- call (EvCollectCode input_path title)
                      (collect_code collector input_path title) ;;
     if negb (py_truthy output_file) then
       let msg := "No files found to process or error occurred" in
       ret msg
     else
       shown <- lift (py_str output_file) ;;
       ret ("Code collection complete!" +:+ nl +:+ "Output file: " +:+ shown))
    code_collector_except.

(** The rendering of a response (lines 112 to 117). *)
Definition has_error (response : pydict) : bool :=
  match dict_get response "error" with
  | Some v => negb (is_None v)
  | None => false
  end.

Definition render (response : pydict) : M X unit :=
  if has_error response then
    match dict_get response "error" with
    | Some (VDict error) =>
        match dict_get error "message" with
        | Some message =>
            shown <- lift (py_str message) ;;
            print ("Error: " +:+ shown)
        | None => ret tt
        end
    | _ => ret tt
    end
  else
    match dict_get response "result" with
    | Some r => py_print r
    | None => ret tt
    end.

Definition is_exit (request : pydict) : bool :=
  match dict_get request "method" with
  | Some (VStr m) => String.eqb m "exit"
  | _ => false
  end.

Definition request_falsy (request : option pydict) : bool :=
  match request with
  | None => true
  | Some [] => true
  | Some (_ :: _) => false
  end.

(** The body of the [try] statement of one turn of the loop. *)
Definition loop_body : M X ctl :=
  line <- call (EvInput "> ") (py_input "> ") ;;
  if String.eqb line "" then ret Continue
  else
    request <- call (EvParseRequest line) (parse_request line) ;;
    match request with
    | Some ((_ :: _) as request) =>
        response <- call (EvHandleCommand request) (handle_command request) ;;
        render response ;;;
        if is_exit request then ret Break else ret Continue
    | _ =>
        print "Invalid command format" ;;;
        ret Continue
    end.

(** The [except] clauses of the loop, in the order written. *)
Definition run_dev_mode_except (e : raised) : M X ctl :=
  if isinstance e KeyboardInterrupt || isinstance e EOFError then
    ret Break
  else if isinstance e ValueError then
    shown <- lift (str_of_raised e) ;;
    print ("Value error: " +:+ shown) ;;;
    ret Continue
  else if isinstance e TypeError then
    shown <- lift (str_of_raised e) ;;
    print ("Type error: " +:+ shown) ;;;
    ret Continue
  else if isinstance e Exception then
    shown <- lift (str_of_raised e) ;;
    print ("Unexpected error: " +:+ shown) ;;;
    log ERROR "Unexpected error in developer mode" [] (Some e) ;;;
    ret Continue
  else raise e.

(** One turn of the loop: the body under the [except] clauses. *)
Definition iteration : M X ctl :=
  try_except loop_body run_dev_mode_except.

(** [while True]: [None] when the turns allowed have been used and the
    loop is still running, [Some tt] when it was left by [break]. *)
Fixpoint dev_loop (turns : nat) : M X (option unit) :=
  match turns with
  | O => ret None
  | S turns' =>
      c <- iteration ;;
      match c with
      | Break => ret (Some tt)
      | Continue => dev_loop turns'
      end
  end.

Definition run_dev_mode (turns : nat) : M X (option unit) :=
  print "Starting developer mode terminal..." ;;;
  print "Type 'help' for available commands" ;;;
  print "Type 'exit' to quit" ;;;
  finished <- dev_loop turns ;;
  match finished with
  | Some _ =>
      print (nl +:+ "Exiting developer mode") ;;;
      ret (Some tt)
  | None => ret None
  end.

(** What the collection service does when it is called the way
    [code_collector] calls it in world [w]: the world it leaves, and the
    value [collect_code] returned or the exception raised on the way, by
    [get_project_root], the constructor or [collect_code]. *)
Definition collection_outcome (input_path : input_path_t) (title : string)
    (subproject_id : option string) (w : world X) : world X * result pyval :=
  match get_project_root w with
  | (w0, _, Ok root_path) =>
      match CodeCollector root_path subproject_id w0 with
      | (w1, Ok collector) => collect_code collector input_path title w1
      | (w1, Raise e) => (w1, Raise e)
      end
  | (w0, _, Raise e) => (w0, Raise e)
  end.

(** The courses one turn of the terminal loop can take, by the state in
    which the body of the [try] statement ends. *)
Inductive phase := Reading | Parsing | Dispatching | Rendering.

Inductive turn_end :=
| Failed (ph : phase) (e : raised)
| EmptyLine
| Unparsed
| Rendered (request : pydict).

Inductive turn (w : world X) : turn_end -> Prop :=
| turn_read_fails w1 e :
    py_input "> " w = (w1, Raise e) ->
    turn w (Failed Reading e)
| turn_empty_line w1 :
    py_input "> " w = (w1, Ok "") ->
    turn w EmptyLine
| turn_parse_fails line w1 w2 e :
    py_input "> " w = (w1, Ok line) -> line <> "" ->
    parse_request line w1 = (w2, Raise e) ->
    turn w (Failed Parsing e)
| turn_unparsed line w1 w2 request :
    py_input "> " w = (w1, Ok line) -> line <> "" ->
    parse_request line w1 = (w2, Ok request) ->
    request_falsy request = true ->
    turn w Unparsed
| turn_dispatch_fails line w1 w2 request w3 e :
    py_input "> " w = (w1, Ok line) -> line <> "" ->
    parse_request line w1 = (w2, Ok (Some request)) ->
    request_falsy (Some request) = false ->
    handle_command request w2 = (w3, Raise e) ->
    turn w (Failed Dispatching e)
| turn_render_fails line w1 w2 request w3 response e :
    py_input "> " w = (w1, Ok line) -> line <> "" ->
    parse_request line w1 = (w2, Ok (Some request)) ->
    request_falsy (Some request) = false ->
    handle_command request w2 = (w3, Ok response) ->
    value_of (render response w3) = Raise e ->
    turn w (Failed Rendering e)
| turn_rendered line w1 w2 request w3 response :
    py_input "> " w = (w1, Ok line) -> line <> "" ->
    parse_request line w1 = (w2, Ok (Some request)) ->
    request_falsy (Some request) = false ->
    handle_command request w2 = (w3, Ok response) ->
    value_of (render response w3) = Ok tt ->
    turn w (Rendered request).

End Server.

Arguments code_collector_except {X} _ _.
Arguments run_dev_mode_except {X} _ _.
Arguments code_collector {X Collector} _ _ _ _ _.
Arguments collection_outcome {X Collector} _ _ _ _ _.

(** The termination signals of the terminal, and the classes its other
    [except] clauses catch. *)
Definition is_signal (e : raised) : bool :=
  isinstance e KeyboardInterrupt || isinstance e EOFError.

Definition is_caught (e : raised) : bool :=
  isinstance e ValueError || isinstance e TypeError || isinstance e Exception.

(** Where the trace of a first computation goes in front of a second. *)
Definition after {X A} (tr : list event)
    (r : world X * list event * result A) : world X * list event * result A :=
  match r with
  | (w, tr', v) => (w, tr ++ tr', v)
  end.

(** ** Test doubles

    Stand-ins for the collaborators, used to run the functions above on
    concrete inputs: a console that replays a script (and raises
    [EOFError] when it is over), a toy terminal that knows [exit],
    [help] and [collect], a dispatcher interrupted by the operator, and
    a collection service with a fixed outcome. *)

Definition console := list (result string).

Definition scripted_input (prompt : string) (w : world console)
  : world console * result string :=
  match ext w with
  | [] => (w, Raise (new_exn EOFError "EOF when reading a line"))
  | r :: rest => (mk_world (environ w) (getcwd w) rest, r)
  end.

Definition toy_parse_request {X} (line : string) (w : world X)
  : world X * result (option pydict) :=
  (w, Ok (if String.eqb line "exit" then Some [("method", VStr "exit")]
          else if String.eqb line "help" then Some [("method", VStr "help")]
          else if String.prefix "collect " line then
            Some [("method", VStr "collect");
                  ("params", VList [VStr (String.substring 8 (String.length line - 8) line)])]
          else None)).

Definition toy_handle_command {X} (request : pydict) (w : world X)
  : world X * result pydict :=
  if is_exit request then (w, Ok [("result", VNone)])
  else match dict_get request "method" with
       | Some (VStr "help") =>
           (w, Ok [("result", VStr "Available commands: collect, help, exit")])
       | _ =>
           (w, Ok [("error", VDict [("code", VInt (-32601));
                                    ("message", VStr "Method not found")])])
       end.

Definition failing_handle_command {X} (e : raised) (request : pydict) (w : world X)
  : world X * result pydict :=
  (w, Raise e).

Definition stub_CodeCollector {X} (r : result unit) (project_root : Path)
    (subproject_id : option string) (w : world X) : world X * result unit :=
  (w, r).

Definition stub_collect_code {X} (r : result pyval) (collector : unit)
    (input_path : input_path_t) (title : string) (w : world X)
  : world X * result pyval :=
  (w, r).

Definition sample_world {X} (x : X) : world X :=
  mk_world ∅ (Ok "/home/dev/project") x.

(** The same world after the working directory has been removed. *)
Definition cwd_gone : raised :=
  new_exn FileNotFoundError "[Errno 2] No such file or directory".

Definition homeless_world {X} (env : gmap string string) (x : X) : world X :=
  mk_world env (Raise cwd_gone) x.


(** ** The module-level terminal

    Line 90, run when the module is imported: the terminal object is
    built from the project root, as a string. The constructor belongs to
    module [terminal]. *)
Definition terminal {X T}
    (JsonRpcTerminal : string -> world X -> world X * result T) : M X T :=
  bind get_project_root (fun project_root =>
    fun w =>
      match JsonRpcTerminal (str_of_Path project_root) w with
      | (w', r) => (w', [], r)
      end).

(** The calls into the collaborators among the events of a trace. *)
Definition is_terminal_call (ev : event) : bool :=
  match ev with
  | EvInput _ | EvParseRequest _ | EvHandleCommand _ => true
  | _ => false
  end.

Definition is_service_call (ev : event) : bool :=
  match ev with
  | EvCodeCollector _ _ | EvCollectCode _ _ => true
  | _ => false
  end.

(** The three lines [run_dev_mode] prints before its loop. *)
Definition banner : list event :=
  [EvPrint "Starting developer mode terminal...";
   EvPrint "Type 'help' for available commands";
   EvPrint "Type 'exit' to quit"].

(** * Properties *)

(** ** pathlib: [Path(str(p)) == p] and [str(p)] is never empty *)

Definition no_sep (x : string) : bool := negb (string_contains_char sep x).

Lemma no_sep_cons c x :
  no_sep (String c x) = negb (Ascii.eqb c sep) && no_sep x.
Proof.
  unfold no_sep. cbn [string_contains_char].
  rewrite (Ascii.eqb_sym sep c). apply negb_orb.
Qed.

Lemma split_sep_not_nil s : split_sep s <> [].
Proof.
  destruct s as [|c s]; cbn [split_sep]; [discriminate|].
  destruct (Ascii.eqb c sep); [discriminate|].
  destruct (split_sep s); discriminate.
Qed.

Lemma split_sep_no_sep s : Forall (fun x => no_sep x = true) (split_sep s).
Proof.
  induction s as [|c s IH]; cbn [split_sep].
  - repeat constructor.
  - destruct (Ascii.eqb c sep) eqn:Hc.
    + constructor; [reflexivity | exact IH].
    + destruct (split_sep s) as [|x xs].
      * constructor; [|constructor]. rewrite no_sep_cons, Hc. reflexivity.
      * inversion IH as [|? ? Hx Hxs]; subst. constructor; [|exact Hxs].
        rewrite no_sep_cons, Hc. exact Hx.
Qed.

Lemma split_sep_single x : no_sep x = true -> split_sep x = [x].
Proof.
  induction x as [|c x IH]; [reflexivity|].
  rewrite no_sep_cons. cbn [split_sep].
  destruct (Ascii.eqb c sep); cbn [negb andb]; [discriminate|].
  intros H. rewrite IH by exact H. reflexivity.
Qed.

Lemma split_sep_app x rest :
  no_sep x = true ->
  split_sep (x +:+ String sep rest) = x :: split_sep rest.
Proof.
  induction x as [|c x IH].
  - intros _. change (EmptyString +:+ String sep rest) with (String sep rest).
    cbn [split_sep]. rewrite Ascii.eqb_refl. reflexivity.
  - rewrite no_sep_cons.
    change (String c x +:+ String sep rest) with (String c (x +:+ String sep rest)).
    cbn [split_sep].
    destruct (Ascii.eqb c sep); cbn [negb andb]; [discriminate|].
    intros H. rewrite IH by exact H. reflexivity.
Qed.

Lemma split_sep_concat l :
  l <> [] -> Forall (fun x => no_sep x = true) l ->
  split_sep (String.concat "/" l) = l.
Proof.
  induction l as [|x l IH]; [congruence|].
  intros _ Hall. inversion Hall as [|? ? Hx Hl]; subst.
  destruct l as [|y l].
  - apply split_sep_single, Hx.
  - change (String.concat "/" (x :: y :: l))
      with (x +:+ String sep (String.concat "/" (y :: l))).
    rewrite split_sep_app by exact Hx.
    rewrite IH by (discriminate || exact Hl). reflexivity.
Qed.

Definition starts_with_sep (s : string) : bool :=
  match s with
  | String c _ => Ascii.eqb c sep
  | EmptyString => false
  end.

Lemma lstrip_sep_id s : starts_with_sep s = false -> lstrip_sep s = s.
Proof. destruct s as [|c s]; simpl; [reflexivity|]. intros ->. reflexivity. Qed.

Lemma splitroot_relative s :
  starts_with_sep s = false -> splitroot s = ("", s).
Proof.
  intros H. unfold splitroot. rewrite lstrip_sep_id by exact H.
  rewrite Nat.sub_diag. reflexivity.
Qed.

Lemma splitroot_one_slash s :
  starts_with_sep s = false -> splitroot (String sep s) = ("/", s).
Proof.
  intros H. unfold splitroot. cbn [lstrip_sep]. rewrite Ascii.eqb_refl.
  rewrite lstrip_sep_id by exact H. cbn [String.length].
  replace (S (String.length s) - String.length s)%nat with 1%nat by lia.
  reflexivity.
Qed.

Lemma splitroot_two_slashes s :
  starts_with_sep s = false -> splitroot (String sep (String sep s)) = ("//", s).
Proof.
  intros H. unfold splitroot. cbn [lstrip_sep]. rewrite Ascii.eqb_refl.
  rewrite lstrip_sep_id by exact H. cbn [String.length].
  replace (S (S (String.length s)) - String.length s)%nat with 2%nat by lia.
  reflexivity.
Qed.

(** What [Path(s)] always satisfies. *)
Definition path_wf (p : Path) : Prop :=
  (path_root p = "" \/ path_root p = "/" \/ path_root p = "//") /\
  Forall (fun x => is_component x = true /\ no_sep x = true) (path_parts p).

Lemma splitroot_root s :
  fst (splitroot s) = "" \/ fst (splitroot s) = "/" \/ fst (splitroot s) = "//".
Proof.
  unfold splitroot.
  destruct (Nat.eqb _ 0); [left; reflexivity|].
  destruct (Nat.eqb _ 2); [right; right; reflexivity | right; left; reflexivity].
Qed.

Lemma Path_of_str_wf s : path_wf (Path_of_str s).
Proof.
  unfold Path_of_str, path_wf. pose proof (splitroot_root s) as Hroot.
  destruct (splitroot s) as [root rel]. cbn [path_root path_parts fst] in *.
  split; [exact Hroot|].
  pose proof (split_sep_no_sep rel) as Hall.
  induction Hall as [|x l Hx Hl IH]; cbn [List.filter]; [constructor|].
  destruct (is_component x) eqn:Hc; [|exact IH].
  constructor; [split; assumption | exact IH].
Qed.

Lemma filter_components l :
  Forall (fun x => is_component x = true /\ no_sep x = true) l ->
  List.filter is_component l = l.
Proof.
  induction 1 as [|x l [Hx _] _ IH]; cbn [List.filter]; [reflexivity|].
  rewrite Hx, IH. reflexivity.
Qed.

Lemma concat_components x l :
  Forall (fun x => is_component x = true /\ no_sep x = true) (x :: l) ->
  starts_with_sep (String.concat "/" (x :: l)) = false /\
  String.concat "/" (x :: l) <> "" /\
  split_sep (String.concat "/" (x :: l)) = x :: l.
Proof.
  intros Hall. split; [|split].
  - inversion Hall as [|? ? [Hc Hs] _]; subst.
    destruct x as [|c x]; [discriminate Hc|].
    rewrite no_sep_cons in Hs. apply andb_prop in Hs as [Hs _].
    apply negb_true_iff in Hs.
    destruct l; [exact Hs|].
    change (String.concat "/" (String c x :: s :: l))
      with (String c (x +:+ String sep (String.concat "/" (s :: l)))).
    exact Hs.
  - inversion Hall as [|? ? [Hc Hs] _]; subst.
    destruct x as [|c x]; [discriminate Hc|].
    destruct l; [discriminate|].
    change (String.concat "/" (String c x :: s :: l))
      with (String c (x +:+ String sep (String.concat "/" (s :: l)))).
    discriminate.
  - apply split_sep_concat; [discriminate|].
    eapply Forall_impl; [exact Hall|]. intros ? [_ ?]. assumption.
Qed.

Lemma Path_of_str_of_Path p : path_wf p -> Path_of_str (str_of_Path p) = p.
Proof.
  destruct p as [root parts]. intros [Hroot Hparts].
  cbn [path_root path_parts] in *. unfold str_of_Path, Path_of_str.
  cbn [path_root path_parts].
  destruct parts as [|x l].
  - destruct Hroot as [-> | [-> | ->]]; reflexivity.
  - destruct (concat_components x l Hparts) as (Hstart & Hne & Hsplit).
    assert (Hf : List.filter is_component (x :: l) = x :: l)
      by (apply filter_components; exact Hparts).
    destruct Hroot as [-> | [-> | ->]].
    + change (EmptyString +:+ String.concat "/" (x :: l))
        with (String.concat "/" (x :: l)).
      destruct (String.eqb_spec (String.concat "/" (x :: l)) "") as [E|_];
        [contradiction|].
      rewrite splitroot_relative by exact Hstart.
      rewrite Hsplit, Hf. reflexivity.
    + change ("/" +:+ String.concat "/" (x :: l))
        with (String sep (String.concat "/" (x :: l))).
      cbn [String.eqb].
      rewrite splitroot_one_slash by exact Hstart.
      rewrite Hsplit, Hf. reflexivity.
    + change ("//" +:+ String.concat "/" (x :: l))
        with (String sep (String sep (String.concat "/" (x :: l)))).
      cbn [String.eqb].
      rewrite splitroot_two_slashes by exact Hstart.
      rewrite Hsplit, Hf. reflexivity.
Qed.

Lemma Path_roundtrip s :
  Path_of_str (str_of_Path (Path_of_str s)) = Path_of_str s.
Proof. apply Path_of_str_of_Path, Path_of_str_wf. Qed.

Lemma str_of_Path_nonempty p : str_of_Path p <> "".
Proof.
  unfold str_of_Path.
  destruct (String.eqb_spec (path_root p +:+ String.concat "/" (path_parts p)) "");
    [discriminate | assumption].
Qed.

(** ** get_project_root *)

Ltac unfold_monad :=
  cbv beta iota zeta delta
    [bind ret raise try_except emit lift print log py_print call Path_cwd
     environ_get environ_set world_of trace_of value_of fst snd].

Lemma get_project_root_no_cwd {X} (w : world X) e :
  getcwd w = Raise e -> get_project_root w = (w, [], Raise e).
Proof.
  intros Hcwd. unfold get_project_root. unfold_monad. rewrite Hcwd.
  reflexivity.
Qed.

Lemma get_project_root_set {X} (w : world X) dir s :
  getcwd w = Ok dir ->
  environ w !! "MCP_PROJECT_ROOT" = Some s -> s <> "" ->
  get_project_root w = (w, [], Ok (Path_of_str s)).
Proof.
  intros Hcwd Hget Hne. unfold get_project_root. unfold_monad.
  rewrite Hcwd. cbv beta iota. rewrite Hget.
  destruct (String.eqb_spec s ""); [contradiction | reflexivity].
Qed.

Lemma get_project_root_unset {X} (w : world X) dir :
  getcwd w = Ok dir ->
  environ w !! "MCP_PROJECT_ROOT" = None \/
  environ w !! "MCP_PROJECT_ROOT" = Some "" ->
  get_project_root w =
    (mk_world (<["MCP_PROJECT_ROOT" := str_of_Path (Path_of_str dir)]> (environ w))
       (getcwd w) (ext w),
     [EvLog INFO "Set MCP_PROJECT_ROOT to: %s" [VPath (Path_of_str dir)] None],
     Ok (Path_of_str dir)).
Proof.
  destruct w as [env cwd x]. cbn [getcwd environ ext]. intros ->.
  intros [Hget | Hget]; unfold get_project_root; unfold_monad;
    cbn [getcwd environ ext]; rewrite Hget; reflexivity.
Qed.

(** The three ways through get_project_root. *)
Lemma get_project_root_cases {X} (w : world X) :
  (exists e, getcwd w = Raise e /\ get_project_root w = (w, [], Raise e)) \/
  (exists dir s,
     getcwd w = Ok dir /\
     environ w !! "MCP_PROJECT_ROOT" = Some s /\ s <> "" /\
     get_project_root w = (w, [], Ok (Path_of_str s))) \/
  (exists dir,
     getcwd w = Ok dir /\
     (environ w !! "MCP_PROJECT_ROOT" = None \/
      environ w !! "MCP_PROJECT_ROOT" = Some "") /\
     get_project_root w =
       (mk_world (<["MCP_PROJECT_ROOT" := str_of_Path (Path_of_str dir)]> (environ w))
          (getcwd w) (ext w),
        [EvLog INFO "Set MCP_PROJECT_ROOT to: %s" [VPath (Path_of_str dir)] None],
        Ok (Path_of_str dir))).
Proof.
  destruct (getcwd w) as [dir|e] eqn:Hcwd.
  - right. destruct (environ w !! "MCP_PROJECT_ROOT") as [s|] eqn:Hget;
      [destruct (String.eqb_spec s "") as [-> | Hne]|].
    + right. exists dir. split; [reflexivity|]. split; [auto|].
      rewrite (get_project_root_unset w dir Hcwd) by auto.
      rewrite Hcwd. reflexivity.
    + left. exists dir, s. split; [reflexivity|]. split; [reflexivity|].
      split; [exact Hne|]. eapply get_project_root_set; eauto.
    + right. exists dir. split; [reflexivity|]. split; [auto|].
      rewrite (get_project_root_unset w dir Hcwd) by auto.
      rewrite Hcwd. reflexivity.
  - left. exists e. split; [reflexivity|].
    apply get_project_root_no_cwd, Hcwd.
Qed.

(** C9, amended: get_project_root asks for the working directory first,
    whatever the environment holds. When that succeeds and
    MCP_PROJECT_ROOT holds a non-empty string, it returns the path made of
    that string and changes nothing (no write, no log record); when it
    succeeds and the variable is unset or empty, it returns the working
    directory and stores it, as a string, in MCP_PROJECT_ROOT. When
    Path.cwd() raises, get_project_root raises that exception and changes
    nothing. *)
Theorem get_project_root_env_or_cwd {X} (w : world X) :
  (forall dir s,
     getcwd w = Ok dir ->
     environ w !! "MCP_PROJECT_ROOT" = Some s -> s <> "" ->
     get_project_root w = (w, [], Ok (Path_of_str s))) /\
  (forall dir,
     getcwd w = Ok dir ->
     environ w !! "MCP_PROJECT_ROOT" = None \/
     environ w !! "MCP_PROJECT_ROOT" = Some "" ->
     value_of (get_project_root w) = Ok (Path_of_str dir) /\
     environ (world_of (get_project_root w)) =
       <["MCP_PROJECT_ROOT" := str_of_Path (Path_of_str dir)]> (environ w) /\
     getcwd (world_of (get_project_root w)) = getcwd w /\
     ext (world_of (get_project_root w)) = ext w) /\
  (forall e,
     getcwd w = Raise e -> get_project_root w = (w, [], Raise e)).
Proof.
  split; [|split].
  - intros dir s. apply get_project_root_set.
  - intros dir Hcwd H. rewrite (get_project_root_unset w dir Hcwd H).
    repeat split.
  - intros e. apply get_project_root_no_cwd.
Qed.

Lemma get_project_root_env_or_cwd_witness :
  get_project_root (mk_world {["MCP_PROJECT_ROOT" := "/srv//app/"]} (Ok "/tmp") tt)
  = (mk_world {["MCP_PROJECT_ROOT" := "/srv//app/"]} (Ok "/tmp") tt, [],
     Ok (mk_Path "/" ["srv"; "app"])) /\
  value_of (get_project_root (sample_world tt))
  = Ok (mk_Path "/" ["home"; "dev"; "project"]) /\
  environ (world_of (get_project_root (sample_world tt)))
  = {["MCP_PROJECT_ROOT" := "/home/dev/project"]}.
Proof.
  split.
  - apply (proj1 (get_project_root_env_or_cwd
                    (mk_world {["MCP_PROJECT_ROOT" := "/srv//app/"]} (Ok "/tmp") tt))
             "/tmp" "/srv//app/"); [reflexivity | reflexivity | discriminate].
  - pose proof (proj1 (proj2 (get_project_root_env_or_cwd (sample_world tt)))
                  "/home/dev/project" eq_refl (or_introl eq_refl))
      as (H1 & H2 & _).
    split; [exact H1 | exact H2].
Defined.

(** C9 as stated fails: MCP_PROJECT_ROOT holds a non-empty string, the
    working directory has been removed, and get_project_root raises
    instead of returning the stored path. *)
Lemma get_project_root_needs_cwd :
  environ (homeless_world {["MCP_PROJECT_ROOT" := "/srv/app"]} tt)
    !! "MCP_PROJECT_ROOT" = Some "/srv/app" /\
  get_project_root (homeless_world {["MCP_PROJECT_ROOT" := "/srv/app"]} tt)
  = (homeless_world {["MCP_PROJECT_ROOT" := "/srv/app"]} tt, [],
     Raise cwd_gone).
Proof. split; reflexivity. Qed.




(** ** code_collector *)

Lemma value_of_after {X A} tr (r : world X * list event * result A) :
  value_of (after tr r) = value_of r.
Proof. destruct r as [[? ?] ?]. reflexivity. Qed.

Lemma trace_of_after {X A} tr (r : world X * list event * result A) :
  trace_of (after tr r) = tr ++ trace_of r.
Proof. destruct r as [[? ?] ?]. reflexivity. Qed.

Lemma world_of_after {X A} tr (r : world X * list event * result A) :
  world_of (after tr r) = world_of r.
Proof. destruct r as [[? ?] ?]. reflexivity. Qed.

Section CollectorProperties.
Context {X Collector : Type}.
Variable CodeCollector :
  Path -> option string -> world X -> world X * result Collector.
Variable collect_code :
  Collector -> input_path_t -> string -> world X -> world X * result pyval.

Local Abbreviation entry := (code_collector CodeCollector collect_code).
Local Abbreviation outcome := (collection_outcome CodeCollector collect_code).

(** An exception of the service reaches the [except] clauses, in the
    world the service left. *)
Lemma code_collector_raised input title sub (w w' : world X) e :
  outcome input title sub w = (w', Raise e) ->
  exists tr, entry input title sub w = after tr (code_collector_except e w').
Proof.
  unfold code_collector, collection_outcome. unfold_monad.
  destruct (get_project_root w) as [[w0 tr0] [root|e0]]; cbv beta iota.
  - destruct (CodeCollector root sub w0) as [w1 [c|e1]]; cbv beta iota.
    + intros ->. cbv beta iota.
      destruct (code_collector_except e w') as [[w2 tr2] r2]. cbv beta iota.
      eexists. unfold after. rewrite !app_assoc. reflexivity.
    + intros [= -> ->].
      destruct (code_collector_except e w') as [[w2 tr2] r2]. cbv beta iota.
      eexists. unfold after. rewrite !app_assoc. reflexivity.
  - intros [= -> ->].
    destruct (code_collector_except e w') as [[w2 tr2] r2]. cbv beta iota.
    eexists. unfold after. rewrite !app_assoc. reflexivity.
Qed.

(** A value returned by the service is answered by its truth value. *)
Lemma code_collector_returned input title sub (w w' : world X) out :
  outcome input title sub w = (w', Ok out) ->
  value_of (entry input title sub w) =
    if py_truthy out then
      match py_str out with
      | Ok shown =>
          Ok ("Code collection complete!" +:+ nl +:+ "Output file: " +:+ shown)
      | Raise e => value_of (code_collector_except e w')
      end
    else Ok "No files found to process or error occurred".
Proof.
  unfold code_collector, collection_outcome. unfold_monad.
  destruct (get_project_root w) as [[w0 tr0] [root|e0]]; cbv beta iota;
    [|discriminate].
  destruct (CodeCollector root sub w0) as [w1 [c|e1]]; cbv beta iota;
    [|discriminate].
  intros ->. cbv beta iota.
  destruct (py_truthy out); cbn [negb]; cbv beta iota; [|reflexivity].
  destruct (py_str out) as [shown|e]; cbv beta iota; [reflexivity|].
  destruct (code_collector_except e w') as [[w2 tr2] r2]. reflexivity.
Qed.

Lemma code_collector_except_file_system (e : exn) (w : world X) :
  isinstance e FileNotFoundError || isinstance e PermissionError
    || isinstance e OSError = true ->
  value_of (code_collector_except e w)
  = Ok ("File system error collecting code: " +:+ exn_str e).
Proof. intros H. unfold code_collector_except. rewrite H. reflexivity. Qed.

(** The last two ways through the [except] clauses: the clause for
    Exception, and no clause at all. *)
Lemma code_collector_except_unexpected (e : raised) (w : world X) :
  isinstance e FileNotFoundError = false ->
  isinstance e PermissionError = false ->
  isinstance e OSError = false ->
  isinstance e ValueError = false ->
  isinstance e TypeError = false ->
  code_collector_except e w
  = if isinstance e Exception then
      match str_of_raised e with
      | Ok shown =>
          (w, [EvLog ERROR ("Unexpected error collecting code: " +:+ shown) []
                 (Some e)],
           Ok "An unexpected error occurred. Check server logs.")
      | Raise e' => (w, [], Raise e')
      end
    else (w, [], Raise e).
Proof.
  intros H1 H2 H3 H4 H5. unfold code_collector_except.
  rewrite H1, H2, H3, H4, H5. cbn [orb].
  destruct (isinstance e Exception); [|reflexivity].
  unfold_monad. destruct (str_of_raised e); reflexivity.
Qed.

(** C2, amended: when the collection service raises an exception that is
    an instance of none of FileNotFoundError, PermissionError, OSError,
    ValueError and TypeError, then: if it is an instance of Exception and
    str(e) returns, code_collector returns the fixed string An unexpected
    error occurred. Check server logs. (nothing of the exception is in
    it), and the last record it logs, at level ERROR with the exception
    attached, carries the exception's text; if it is an instance of
    Exception and str(e) itself raises, what str(e) raised leaves
    code_collector, because the text is formatted inside the except
    clause; if it is no instance of Exception either, it is not caught
    and leaves code_collector. *)
Theorem code_collector_unexpected_error input title sub (w w' : world X)
    (e : raised) :
  outcome input title sub w = (w', Raise e) ->
  isinstance e FileNotFoundError = false ->
  isinstance e PermissionError = false ->
  isinstance e OSError = false ->
  isinstance e ValueError = false ->
  isinstance e TypeError = false ->
  (isinstance e Exception = true ->
     (forall shown, str_of_raised e = Ok shown ->
        value_of (entry input title sub w)
        = Ok "An unexpected error occurred. Check server logs." /\
        exists tr,
          trace_of (entry input title sub w)
          = tr ++ [EvLog ERROR ("Unexpected error collecting code: " +:+ shown)
                     [] (Some e)]) /\
     (forall e', str_of_raised e = Raise e' ->
        value_of (entry input title sub w) = Raise e')) /\
  (isinstance e Exception = false ->
     value_of (entry input title sub w) = Raise e).
Proof.
  intros Hout H1 H2 H3 H4 H5.
  destruct (code_collector_raised _ _ _ _ _ _ Hout) as [tr ->].
  rewrite value_of_after, trace_of_after.
  rewrite (code_collector_except_unexpected e w' H1 H2 H3 H4 H5).
  split.
  - intros ->. split.
    + intros shown ->. split; [reflexivity | exists tr; reflexivity].
    + intros e' ->. reflexivity.
  - intros ->. reflexivity.
Qed.

(** C3: when the collection service raises FileNotFoundError,
    PermissionError or OSError, code_collector returns File system error
    collecting code: followed by str(e), and raises nothing. *)
Theorem code_collector_file_system_error input title sub (w w' : world X)
    (e : exn) :
  outcome input title sub w = (w', Raise e) ->
  isinstance e FileNotFoundError || isinstance e PermissionError
    || isinstance e OSError = true ->
  value_of (entry input title sub w)
  = Ok ("File system error collecting code: " +:+ exn_str e).
Proof.
  intros Hout He.
  destruct (code_collector_raised _ _ _ _ _ _ Hout) as [tr ->].
  rewrite value_of_after. apply code_collector_except_file_system, He.
Qed.

(** C4: when collect_code returns a falsy value (None, an empty string,
    ...), code_collector returns the message No files found to process or
    error occurred, and raises nothing. *)
Theorem code_collector_no_output input title sub (w w' : world X) out :
  outcome input title sub w = (w', Ok out) ->
  py_truthy out = false ->
  value_of (entry input title sub w)
  = Ok "No files found to process or error occurred".
Proof.
  intros Hout Hfalsy.
  rewrite (code_collector_returned _ _ _ _ _ _ Hout), Hfalsy. reflexivity.
Qed.

(** C5: when collect_code returns a truthy value whose str() is p (a
    Path, or a non-empty string), code_collector returns exactly Code
    collection complete!, a newline, Output file: and p. *)
Theorem code_collector_output_file input title sub (w w' : world X) out p :
  outcome input title sub w = (w', Ok out) ->
  py_truthy out = true ->
  py_str out = Ok p ->
  value_of (entry input title sub w)
  = Ok ("Code collection complete!" +:+ nl +:+ "Output file: " +:+ p).
Proof.
  intros Hout Htruthy Hstr.
  rewrite (code_collector_returned _ _ _ _ _ _ Hout), Htruthy, Hstr.
  reflexivity.
Qed.

End CollectorProperties.

Lemma code_collector_unexpected_error_witness :
  value_of (code_collector (stub_CodeCollector (Ok tt))
              (stub_collect_code (Raise (new_exn (UserClass "RuntimeError") "boom")))
              (OnePath "src") "Code Collection" None (sample_world tt))
  = Ok "An unexpected error occurred. Check server logs.".
Proof.
  refine (proj1 (proj1 (proj1 (code_collector_unexpected_error
                   (stub_CodeCollector (Ok tt))
                   (stub_collect_code (Raise (new_exn (UserClass "RuntimeError") "boom")))
                   (OnePath "src") "Code Collection" None (sample_world tt)
                   (world_of (get_project_root (sample_world tt)))
                   (new_exn (UserClass "RuntimeError") "boom")
                   _ _ _ _ _ _) _) "boom" _)); reflexivity.
Defined.

(** C2 as stated fails: a KeyboardInterrupt raised by collect_code is an
    instance of none of the five classes, and leaves code_collector as an
    exception. *)
Lemma code_collector_interrupt_propagates :
  isinstance (new_exn KeyboardInterrupt "") FileNotFoundError = false /\
  isinstance (new_exn KeyboardInterrupt "") PermissionError = false /\
  isinstance (new_exn KeyboardInterrupt "") OSError = false /\
  isinstance (new_exn KeyboardInterrupt "") ValueError = false /\
  isinstance (new_exn KeyboardInterrupt "") TypeError = false /\
  snd (collection_outcome (stub_CodeCollector (Ok tt))
         (stub_collect_code (Raise (new_exn KeyboardInterrupt "")))
         (OnePath "src") "Code Collection" None (sample_world tt))
  = Raise (new_exn KeyboardInterrupt "") /\
  value_of (code_collector (stub_CodeCollector (Ok tt))
              (stub_collect_code (Raise (new_exn KeyboardInterrupt "")))
              (OnePath "src") "Code Collection" None (sample_world tt))
  = Raise (new_exn KeyboardInterrupt "").
Proof. repeat split. Qed.

Lemma code_collector_file_system_error_witness :
  value_of (code_collector (stub_CodeCollector (Ok tt))
              (stub_collect_code
                 (Raise (new_exn FileNotFoundError "[Errno 2] No such file or directory: './does-not-exist'")))
              (OnePath "./does-not-exist") "Code Collection" None (sample_world tt))
  = Ok "File system error collecting code: [Errno 2] No such file or directory: './does-not-exist'".
Proof.
  refine (code_collector_file_system_error
            (stub_CodeCollector (Ok tt))
            (stub_collect_code
               (Raise (new_exn FileNotFoundError "[Errno 2] No such file or directory: './does-not-exist'")))
            (OnePath "./does-not-exist") "Code Collection" None (sample_world tt)
            (world_of (get_project_root (sample_world tt)))
            (new_exn FileNotFoundError "[Errno 2] No such file or directory: './does-not-exist'")
            _ _); reflexivity.
Defined.

Lemma code_collector_no_output_witness :
  value_of (code_collector (stub_CodeCollector (Ok tt)) (stub_collect_code (Ok VNone))
              (OnePath "src") "Code Collection" None (sample_world tt))
  = Ok "No files found to process or error occurred".
Proof.
  refine (code_collector_no_output
            (stub_CodeCollector (Ok tt)) (stub_collect_code (Ok VNone))
            (OnePath "src") "Code Collection" None (sample_world tt)
            (world_of (get_project_root (sample_world tt))) VNone _ _);
    reflexivity.
Defined.

Lemma code_collector_output_file_witness :
  value_of (code_collector (stub_CodeCollector (Ok tt))
              (stub_collect_code (Ok (VPath (Path_of_str "/home/dev/project/.neurolora/README.md"))))
              (OnePath "./README.md") "Read me" None (sample_world tt))
  = Ok ("Code collection complete!" +:+ nl
        +:+ "Output file: /home/dev/project/.neurolora/README.md").
Proof.
  refine (code_collector_output_file
            (stub_CodeCollector (Ok tt))
            (stub_collect_code (Ok (VPath (Path_of_str "/home/dev/project/.neurolora/README.md"))))
            (OnePath "./README.md") "Read me" None (sample_world tt)
            (world_of (get_project_root (sample_world tt)))
            (VPath (Path_of_str "/home/dev/project/.neurolora/README.md"))
            "/home/dev/project/.neurolora/README.md" _ _ _);
    reflexivity.
Defined.

(** ** run_dev_mode *)

Lemma py_print_shown {X} (v : pyval) (shown : string) (w : world X) :
  py_str v = Ok shown -> py_print v w = (w, [EvPrint shown], Ok tt).
Proof. intros H. unfold py_print. unfold_monad. rewrite H. reflexivity. Qed.

(** What rendering can do. *)
Lemma render_cases {X} (response : pydict) (w : world X) :
  render response w = (w, [], Ok tt) \/
  (exists text, render response w = (w, [EvPrint text], Ok tt)) \/
  (exists e, render response w = (w, [], Raise e)).
Proof.
  assert (Hprint : forall v,
    (exists text, @py_print X v w = (w, [EvPrint text], Ok tt)) \/
    (exists e, @py_print X v w = (w, [], Raise e))).
  { intros v. unfold py_print. unfold_monad.
    destruct (py_str v) as [shown|e]; [left | right]; eexists; reflexivity. }
  unfold render. destruct (has_error response).
  - destruct (dict_get response "error") as [[| | | | | |d|]|]; auto.
    destruct (dict_get d "message") as [message|]; auto.
    unfold_monad.
    destruct (py_str message) as [shown|e]; right; [left | right];
      eexists; reflexivity.
  - destruct (dict_get response "result") as [r|]; auto.
Qed.

Lemma render_raise {X} (response : pydict) (w : world X) e :
  value_of (render response w) = Raise e ->
  render response w = (w, [], Raise e).
Proof.
  destruct (render_cases response w)
    as [-> | [[text ->] | [e' ->]]]; try discriminate.
  intros [= ->]. reflexivity.
Qed.

(** The outcome of the [except] clauses of the loop, clause by clause. *)
Lemma run_dev_mode_except_cases {X} (e : raised) (w : world X) :
  run_dev_mode_except e w
  = if is_signal e then (w, [], Ok Break)
    else if isinstance e ValueError then
      match str_of_raised e with
      | Ok shown => (w, [EvPrint ("Value error: " +:+ shown)], Ok Continue)
      | Raise e' => (w, [], Raise e')
      end
    else if isinstance e TypeError then
      match str_of_raised e with
      | Ok shown => (w, [EvPrint ("Type error: " +:+ shown)], Ok Continue)
      | Raise e' => (w, [], Raise e')
      end
    else if isinstance e Exception then
      match str_of_raised e with
      | Ok shown =>
          (w, [EvPrint ("Unexpected error: " +:+ shown);
               EvLog ERROR "Unexpected error in developer mode" [] (Some e)],
           Ok Continue)
      | Raise e' => (w, [], Raise e')
      end
    else (w, [], Raise e).
Proof.
  unfold run_dev_mode_except, is_signal.
  destruct (isinstance e KeyboardInterrupt || isinstance e EOFError);
    [reflexivity|].
  destruct (isinstance e ValueError);
    [unfold_monad; destruct (str_of_raised e); reflexivity|].
  destruct (isinstance e TypeError);
    [unfold_monad; destruct (str_of_raised e); reflexivity|].
  destruct (isinstance e Exception);
    [unfold_monad; destruct (str_of_raised e); reflexivity|].
  reflexivity.
Qed.

Lemma run_dev_mode_except_value {X} (e : raised) (w : world X) :
  value_of (run_dev_mode_except e w)
  = if is_signal e then Ok Break
    else if is_caught e then
      match str_of_raised e with
      | Ok _ => Ok Continue
      | Raise e' => Raise e'
      end
    else Raise e.
Proof.
  rewrite run_dev_mode_except_cases. unfold is_caught.
  destruct (is_signal e); [reflexivity|].
  destruct (isinstance e ValueError);
    [destruct (str_of_raised e); reflexivity|].
  destruct (isinstance e TypeError);
    [destruct (str_of_raised e); reflexivity|].
  destruct (isinstance e Exception);
    [destruct (str_of_raised e); reflexivity|].
  reflexivity.
Qed.

(** A caught exception is reported on the console before the loop goes
    on. *)
Lemma run_dev_mode_except_prints {X} (e : raised) (shown : string)
    (w : world X) :
  is_signal e = false -> is_caught e = true ->
  str_of_raised e = Ok shown ->
  exists label rest,
    trace_of (run_dev_mode_except e w) = EvPrint (label +:+ shown) :: rest.
Proof.
  intros Hs Hc Hstr. rewrite run_dev_mode_except_cases, Hs, Hstr.
  unfold is_caught in Hc.
  destruct (isinstance e ValueError); [eexists _, _; reflexivity|].
  destruct (isinstance e TypeError); [eexists _, _; reflexivity|].
  destruct (isinstance e Exception); [eexists _, _; reflexivity|].
  discriminate Hc.
Qed.

Lemma bind_call_starts {X A B} ev (f : world X -> world X * result A)
    (k : A -> M X B) (w : world X) :
  exists w' rest r, bind (call ev f) k w = (w', ev :: rest, r).
Proof.
  unfold bind, call. destruct (f w) as [w1 [a|e]].
  - destruct (k a w1) as [[w2 t2] r]. eexists _, _, _; reflexivity.
  - eexists _, _, _; reflexivity.
Qed.

Section TerminalProperties.
Context {X : Type}.
Variable py_input : string -> world X -> world X * result string.
Variable parse_request : string -> world X -> world X * result (option pydict).
Variable handle_command : pydict -> world X -> world X * result pydict.

Local Abbreviation body := (loop_body py_input parse_request handle_command).
Local Abbreviation one_turn := (iteration py_input parse_request handle_command).
Local Abbreviation loop := (dev_loop py_input parse_request handle_command).
Local Abbreviation course := (turn py_input parse_request handle_command).

Lemma iteration_by_body (w : world X) :
  one_turn w
  = match body w with
    | (w1, t1, Ok c) => (w1, t1, Ok c)
    | (w1, t1, Raise e) => after t1 (run_dev_mode_except e w1)
    end.
Proof. reflexivity. Qed.

Lemma dev_loop_step (n : nat) (w : world X) :
  loop (S n) w
  = match one_turn w with
    | (w1, t1, Ok Break) => (w1, t1, Ok (Some tt))
    | (w1, t1, Ok Continue) => after t1 (loop n w1)
    | (w1, t1, Raise e) => (w1, t1, Raise e)
    end.
Proof.
  cbn [dev_loop]. unfold bind at 1.
  destruct (one_turn w) as [[w1 t1] [[|]|e]]; try reflexivity.
  unfold ret. rewrite app_nil_r. reflexivity.
Qed.

(** Every way through one turn, with its events. *)
Lemma iteration_cases (w : world X) :
  match py_input "> " w with
  | (w1, Raise e) =>
      one_turn w = after [EvInput "> "] (run_dev_mode_except e w1)
  | (w1, Ok line) =>
      if String.eqb line "" then one_turn w = (w1, [EvInput "> "], Ok Continue)
      else
        match parse_request line w1 with
        | (w2, Raise e) =>
            one_turn w
            = after [EvInput "> "; EvParseRequest line]
                (run_dev_mode_except e w2)
        | (w2, Ok (Some (item :: more))) =>
            match handle_command (item :: more) w2 with
            | (w3, Raise e) =>
                one_turn w
                = after [EvInput "> "; EvParseRequest line;
                         EvHandleCommand (item :: more)]
                    (run_dev_mode_except e w3)
            | (w3, Ok response) =>
                match render response w3 with
                | (w4, tr, Ok _) =>
                    one_turn w
                    = (w4,
                       EvInput "> " :: EvParseRequest line
                       :: EvHandleCommand (item :: more) :: tr,
                       Ok (if is_exit (item :: more) then Break else Continue))
                | (w4, tr, Raise e) =>
                    one_turn w
                    = after (EvInput "> " :: EvParseRequest line
                             :: EvHandleCommand (item :: more) :: tr)
                        (run_dev_mode_except e w4)
                end
            end
        | (w2, Ok _) =>
            one_turn w
            = (w2, [EvInput "> "; EvParseRequest line;
                    EvPrint "Invalid command format"], Ok Continue)
        end
  end.
Proof.
  rewrite iteration_by_body. unfold loop_body. unfold_monad.
  destruct (py_input "> " w) as [w1 [line|e]]; cbv beta iota;
    [|reflexivity].
  destruct (String.eqb line ""); [reflexivity|].
  destruct (parse_request line w1) as [w2 [[[|item more]|]|e]]; cbv beta iota;
    try reflexivity.
  destruct (handle_command (item :: more) w2) as [w3 [response|e]];
    cbv beta iota; [|reflexivity].
  destruct (render response w3) as [[w4 tr] [[]|e]]; cbv beta iota.
  - destruct (is_exit (item :: more)); cbn [app]; rewrite app_nil_r;
      reflexivity.
  - reflexivity.
Qed.

(** Every turn takes one of the courses. *)
Lemma turn_total (w : world X) : exists t, course w t.
Proof.
  destruct (py_input "> " w) as [w1 [line|e]] eqn:Hin;
    [|eexists; eapply turn_read_fails; eassumption].
  destruct (String.eqb_spec line "") as [-> | Hne];
    [eexists; eapply turn_empty_line; eassumption|].
  destruct (parse_request line w1) as [w2 [request|e]] eqn:Hparse;
    [|eexists; eapply turn_parse_fails; eassumption].
  destruct (request_falsy request) eqn:Hfalsy;
    [eexists; eapply turn_unparsed; eassumption|].
  destruct request as [request|]; [|discriminate Hfalsy].
  destruct (handle_command request w2) as [w3 [response|e]] eqn:Hcmd;
    [|eexists; eapply turn_dispatch_fails; eassumption].
  destruct (value_of (render response w3)) as [[]|e] eqn:Hrender.
  - eexists; eapply turn_rendered; eassumption.
  - eexists; eapply turn_render_fails; eassumption.
Qed.

(** A turn on an empty line. *)
Lemma empty_turn (w : world X) :
  course w EmptyLine ->
  exists w1, one_turn w = (w1, [EvInput "> "], Ok Continue).
Proof.
  intros Ht. pose proof (iteration_cases w) as Hc.
  inversion Ht as [ | w1 Hin | | | | | ]; subst. rewrite Hin in Hc.
  exists w1. exact Hc.
Qed.

(** A turn on a line that does not parse. *)
Lemma unparsed_turn (w : world X) :
  course w Unparsed ->
  exists w2 line,
    one_turn w
    = (w2, [EvInput "> "; EvParseRequest line; EvPrint "Invalid command format"],
       Ok Continue).
Proof.
  intros Ht. pose proof (iteration_cases w) as Hc.
  inversion Ht as [ | | | line w1 w2 request Hin Hne Hparse Hfalsy | | | ];
    subst. rewrite Hin in Hc.
  destruct (String.eqb_spec line "") as [?|_]; [contradiction|].
  rewrite Hparse in Hc. exists w2, line.
  destruct request as [[|? ?]|]; try discriminate Hfalsy; exact Hc.
Qed.

(** A turn that renders the response to a request. *)
Lemma rendered_turn (w : world X) (request : pydict) :
  course w (Rendered request) ->
  exists w3 line tr,
    one_turn w
    = (w3, EvInput "> " :: EvParseRequest line :: EvHandleCommand request :: tr,
       Ok (if is_exit request then Break else Continue)) /\
    (tr = [] \/ exists text, tr = [EvPrint text]).
Proof.
  intros Ht. pose proof (iteration_cases w) as Hc.
  inversion Ht as [ | | | | | |
                    line w1 w2 request' w3 response Hin Hne Hparse Hfalsy Hcmd Hr];
    subst. rewrite Hin in Hc.
  destruct (String.eqb_spec line "") as [?|_]; [contradiction|].
  rewrite Hparse in Hc.
  destruct request as [|item more]; [discriminate Hfalsy|].
  rewrite Hcmd in Hc.
  destruct (render_cases response w3) as [Hrd | [[text Hrd] | [e Hrd]]];
    rewrite Hrd in Hc, Hr; [| |discriminate Hr].
  - exists w3, line, []. split; [exact Hc | left; reflexivity].
  - exists w3, line, [EvPrint text].
    split; [exact Hc | right; exists text; reflexivity].
Qed.

(** A turn whose body fails made only calls before the [except] clauses
    took over. *)
Lemma failed_turn (w : world X) ph e :
  course w (Failed ph e) ->
  exists w1 calls,
    one_turn w = after calls (run_dev_mode_except e w1) /\
    List.filter is_terminal_call calls = calls /\
    exists calls' ev, calls = calls' ++ [ev] /\ is_terminal_call ev = true.
Proof.
  intros Ht. pose proof (iteration_cases w) as Hc.
  inversion Ht as [w1 e' Hin | | line w1 w2 e' Hin Hne Hparse | |
                   line w1 w2 request w3 e' Hin Hne Hparse Hfalsy Hcmd |
                   line w1 w2 request w3 response e' Hin Hne Hparse Hfalsy Hcmd Hr
                   | ]; subst;
    rewrite Hin in Hc.
  - exists w1, [EvInput "> "]. repeat split; [exact Hc|].
    exists [], (EvInput "> "). split; reflexivity.
  - destruct (String.eqb_spec line "") as [?|_]; [contradiction|].
    rewrite Hparse in Hc.
    exists w2, [EvInput "> "; EvParseRequest line]. repeat split; [exact Hc|].
    exists [EvInput "> "], (EvParseRequest line). split; reflexivity.
  - destruct (String.eqb_spec line "") as [?|_]; [contradiction|].
    rewrite Hparse in Hc.
    destruct request as [|item more]; [discriminate Hfalsy|].
    rewrite Hcmd in Hc.
    exists w3, [EvInput "> "; EvParseRequest line; EvHandleCommand (item :: more)].
    repeat split; [exact Hc|].
    exists [EvInput "> "; EvParseRequest line], (EvHandleCommand (item :: more)).
    split; reflexivity.
  - destruct (String.eqb_spec line "") as [?|_]; [contradiction|].
    rewrite Hparse in Hc.
    destruct request as [|item more]; [discriminate Hfalsy|].
    rewrite Hcmd, (render_raise _ _ _ Hr) in Hc.
    exists w3, [EvInput "> "; EvParseRequest line; EvHandleCommand (item :: more)].
    repeat split; [exact Hc|].
    exists [EvInput "> "; EvParseRequest line], (EvHandleCommand (item :: more)).
    split; reflexivity.
Qed.

(** How one turn of the loop ends on each course. *)
Lemma iteration_turn (w : world X) (t : turn_end) :
  course w t ->
  value_of (one_turn w)
  = match t with
    | Failed _ e =>
        if is_signal e then Ok Break
        else if is_caught e then
          match str_of_raised e with
          | Ok _ => Ok Continue
          | Raise e' => Raise e'
          end
        else Raise e
    | EmptyLine | Unparsed => Ok Continue
    | Rendered request => Ok (if is_exit request then Break else Continue)
    end.
Proof.
  intros Ht. destruct t as [ph e| | |request].
  - destruct (failed_turn w ph e Ht) as (w1 & calls & -> & _).
    rewrite value_of_after. apply run_dev_mode_except_value.
  - destruct (empty_turn w Ht) as [w1 ->]. reflexivity.
  - destruct (unparsed_turn w Ht) as (w2 & line & ->). reflexivity.
  - destruct (rendered_turn w request Ht) as (w3 & line & tr & -> & _).
    reflexivity.
Qed.

(** Every turn starts by prompting for a line. *)
Lemma iteration_starts_with_prompt (w : world X) :
  exists rest, trace_of (one_turn w) = EvInput "> " :: rest.
Proof.
  rewrite iteration_by_body. unfold loop_body.
  match goal with
  | |- context [bind (call ?ev ?f) ?k w] =>
      destruct (bind_call_starts ev f k w) as (w' & rest & r & ->)
  end.
  destruct r as [c|e]; [eexists; reflexivity|].
  rewrite trace_of_after. eexists; reflexivity.
Qed.

Lemma dev_loop_starts_with_prompt (n : nat) (w : world X) :
  exists rest, trace_of (loop (S n) w) = EvInput "> " :: rest.
Proof.
  rewrite dev_loop_step.
  destruct (iteration_starts_with_prompt w) as [rest Hrest].
  unfold trace_of in Hrest.
  destruct (one_turn w) as [[w1 t1] [[|]|e]]; cbn [fst snd] in Hrest; subst t1.
  - rewrite trace_of_after. eexists; reflexivity.
  - eexists; reflexivity.
  - eexists; reflexivity.
Qed.

(** C1, amended: a turn of the loop ends the loop exactly when the
    response to a parsed request was rendered and the request's method is
    exit, or when a KeyboardInterrupt or an EOFError is raised anywhere in
    the turn (reading, parsing, dispatching or rendering). An exception
    leaves the loop exactly when it was raised in the turn and is an
    instance of none of KeyboardInterrupt, EOFError, ValueError, TypeError
    and Exception, or when it was raised by str(e) while an except clause
    was formatting an exception e it had caught. In every other case the
    loop goes on with the next read: after an empty line, having printed
    nothing; after a line that does not parse, having printed Invalid
    command format; after the response to a request other than exit,
    having printed at most one line; and after catching an exception
    whose str() returns, having printed a message that carries that
    text. *)
Theorem dev_loop_ends_exactly_when (w : world X) (n : nat) :
  (value_of (one_turn w) = Ok Break <->
     (exists request, course w (Rendered request) /\ is_exit request = true) \/
     (exists ph e, course w (Failed ph e) /\ is_signal e = true)) /\
  (forall e', value_of (one_turn w) = Raise e' <->
     (exists ph, course w (Failed ph e') /\ is_signal e' = false /\
                 is_caught e' = false) \/
     (exists ph e, course w (Failed ph e) /\ is_signal e = false /\
                   is_caught e = true /\ str_of_raised e = Raise e')) /\
  (value_of (one_turn w) = Ok Break ->
     loop (S n) w = (world_of (one_turn w), trace_of (one_turn w), Ok (Some tt))) /\
  (value_of (one_turn w) = Ok Continue ->
     loop (S n) w = after (trace_of (one_turn w)) (loop n (world_of (one_turn w)))) /\
  (course w EmptyLine ->
     value_of (one_turn w) = Ok Continue /\
     trace_of (one_turn w) = [EvInput "> "]) /\
  (course w Unparsed ->
     value_of (one_turn w) = Ok Continue /\
     exists line,
       trace_of (one_turn w)
       = [EvInput "> "; EvParseRequest line; EvPrint "Invalid command format"]) /\
  (forall request, course w (Rendered request) -> is_exit request = false ->
     value_of (one_turn w) = Ok Continue /\
     exists line,
       trace_of (one_turn w)
       = [EvInput "> "; EvParseRequest line; EvHandleCommand request] \/
       exists text,
         trace_of (one_turn w)
         = [EvInput "> "; EvParseRequest line; EvHandleCommand request;
            EvPrint text]) /\
  (forall ph e shown, course w (Failed ph e) ->
     is_signal e = false -> is_caught e = true ->
     str_of_raised e = Ok shown ->
     value_of (one_turn w) = Ok Continue /\
     exists label, In (EvPrint (label +:+ shown)) (trace_of (one_turn w))).
Proof.
  repeat match goal with |- _ /\ _ => split end.
  - split.
    + intros Hbreak. destruct (turn_total w) as [t Ht].
      rewrite (iteration_turn w t Ht) in Hbreak.
      destruct t as [ph e| | |request]; try discriminate Hbreak.
      * right. exists ph, e. split; [exact Ht|].
        destruct (is_signal e); [reflexivity|].
        destruct (is_caught e); [|discriminate Hbreak].
        destruct (str_of_raised e); discriminate Hbreak.
      * left. exists request. split; [exact Ht|].
        destruct (is_exit request); [reflexivity | discriminate Hbreak].
    + intros [(request & Ht & Hexit) | (ph & e & Ht & Hsig)];
        rewrite (iteration_turn w _ Ht); [rewrite Hexit | rewrite Hsig];
        reflexivity.
  - intros e'. split.
    + intros Hraise. destruct (turn_total w) as [t Ht].
      rewrite (iteration_turn w t Ht) in Hraise.
      destruct t as [ph e| | |request]; try discriminate Hraise.
      destruct (is_signal e) eqn:Hs; [discriminate Hraise|].
      destruct (is_caught e) eqn:Hc.
      * right. exists ph, e.
        destruct (str_of_raised e) as [shown|e0]; [discriminate Hraise|].
        injection Hraise as ->. auto.
      * left. injection Hraise as <-. exists ph. auto.
    + intros [(ph & Ht & Hs & Hc) | (ph & e & Ht & Hs & Hc & Hstr)];
        rewrite (iteration_turn w _ Ht), Hs, Hc; [|rewrite Hstr]; reflexivity.
  - intros Hbreak. rewrite dev_loop_step. unfold value_of in Hbreak.
    destruct (one_turn w) as [[w1 t1] r]. cbn [snd] in Hbreak. subst r.
    reflexivity.
  - intros Hcont. rewrite dev_loop_step. unfold value_of in Hcont.
    destruct (one_turn w) as [[w1 t1] r]. cbn [snd] in Hcont. subst r.
    reflexivity.
  - intros Ht. destruct (empty_turn w Ht) as [w1 ->]. split; reflexivity.
  - intros Ht. destruct (unparsed_turn w Ht) as (w2 & line & ->).
    split; [reflexivity | exists line; reflexivity].
  - intros request Ht Hexit.
    destruct (rendered_turn w request Ht) as (w3 & line & tr & -> & Htr).
    rewrite Hexit. split; [reflexivity|]. exists line.
    destruct Htr as [-> | [text ->]]; [left | right; exists text]; reflexivity.
  - intros ph e shown Ht Hs Hc Hstr. split.
    + rewrite (iteration_turn w _ Ht), Hs, Hc, Hstr. reflexivity.
    + destruct (failed_turn w ph e Ht) as (w1 & calls & -> & _).
      rewrite trace_of_after.
      destruct (run_dev_mode_except_prints e shown w1 Hs Hc Hstr)
        as (label & rest & ->).
      exists label. apply in_or_app. right. left. reflexivity.
Qed.

(** C6: for a response with exactly one of result and error, whose error
    is a dictionary with a string under message, render prints once: the
    line Error: followed by the message when error is there, and
    otherwise the result, by print(response[result]). *)
Theorem render_prints_one_branch (response : pydict) (w : world X) :
  xorb (dict_contains response "result") (dict_contains response "error") = true ->
  (forall err, dict_get response "error" = Some err ->
     exists d m, err = VDict d /\ dict_get d "message" = Some (VStr m)) ->
  (exists d m,
     dict_get response "error" = Some (VDict d) /\
     dict_get d "message" = Some (VStr m) /\
     dict_get response "result" = None /\
     render response w = (w, [EvPrint ("Error: " +:+ m)], Ok tt)) \/
  (exists r,
     dict_get response "error" = None /\
     dict_get response "result" = Some r /\
     render response w = py_print r w /\
     forall shown, py_str r = Ok shown ->
       render response w = (w, [EvPrint shown], Ok tt)).
Proof.
  unfold dict_contains, render, has_error. intros Hone Hshape.
  destruct (dict_get response "error") as [err|] eqn:Herr.
  - destruct (Hshape err eq_refl) as (d & m & -> & Hm). left.
    exists d, m. cbn [is_None negb]. rewrite Hm.
    destruct (dict_get response "result"); [discriminate Hone|].
    repeat split.
  - destruct (dict_get response "result") as [r|] eqn:Hres;
      [|discriminate Hone].
    right. exists r. repeat split.
    intros shown Hshown. apply py_print_shown, Hshown.
Qed.

(** C7: a non-empty line for which parse_request returns None makes the
    turn print Invalid command format and nothing else, without a call of
    handle_command, and the loop goes on with the next read. *)
Theorem unparsed_line_prints_notice (w w1 w2 : world X) (line : string) (n : nat) :
  py_input "> " w = (w1, Ok line) ->
  line <> "" ->
  parse_request line w1 = (w2, Ok None) ->
  one_turn w
  = (w2, [EvInput "> "; EvParseRequest line; EvPrint "Invalid command format"],
     Ok Continue) /\
  (forall request, ~ In (EvHandleCommand request) (trace_of (one_turn w))) /\
  loop (S n) w
  = after [EvInput "> "; EvParseRequest line; EvPrint "Invalid command format"]
      (loop n w2).
Proof.
  intros Hin Hne Hparse.
  assert (Hturn : one_turn w
    = (w2, [EvInput "> "; EvParseRequest line; EvPrint "Invalid command format"],
       Ok Continue)).
  { rewrite iteration_by_body. unfold loop_body. unfold_monad.
    rewrite Hin. cbv beta iota.
    destruct (String.eqb_spec line "") as [?|_]; [contradiction|].
    rewrite Hparse. reflexivity. }
  split; [exact Hturn|]. split.
  - intros request. rewrite Hturn. unfold trace_of. cbn [fst snd].
    intros [H | [H | [H | []]]]; discriminate H.
  - rewrite dev_loop_step, Hturn. reflexivity.
Qed.

(** C8: an empty line ends the turn at once: nothing is parsed or
    dispatched or printed, and the loop prompts and reads again. *)
Theorem empty_line_reprompts (w w1 : world X) (n : nat) :
  py_input "> " w = (w1, Ok "") ->
  one_turn w = (w1, [EvInput "> "], Ok Continue) /\
  loop (S n) w = after [EvInput "> "] (loop n w1) /\
  exists rest,
    trace_of (loop (S (S n)) w) = EvInput "> " :: EvInput "> " :: rest.
Proof.
  intros Hin.
  assert (Hturn : one_turn w = (w1, [EvInput "> "], Ok Continue)).
  { rewrite iteration_by_body. unfold loop_body. unfold_monad.
    rewrite Hin. reflexivity. }
  split; [exact Hturn|]. split.
  - rewrite dev_loop_step, Hturn. reflexivity.
  - rewrite dev_loop_step, Hturn. rewrite trace_of_after.
    destruct (dev_loop_starts_with_prompt n w1) as [rest ->].
    exists rest. reflexivity.
Qed.

End TerminalProperties.

Lemma dev_loop_ends_exactly_when_witness :
  value_of (iteration scripted_input toy_parse_request toy_handle_command
              (sample_world [Ok "exit"]))
  = Ok Break.
Proof.
  apply (proj2 (proj1 (dev_loop_ends_exactly_when scripted_input
                         toy_parse_request toy_handle_command
                         (sample_world [Ok "exit"]) 0))).
  left. exists [("method", VStr "exit")]. split; [|reflexivity].
  eapply turn_rendered; try reflexivity. discriminate.
Defined.

(** C1 as stated fails: the line was read (no end of input, no interrupt
    while reading), the request's method is collect, the operator
    interrupts the dispatch, and the turn ends the loop without printing
    anything. *)
Lemma interrupt_while_dispatching_ends_loop :
  scripted_input "> " (sample_world [Ok "collect src"])
  = (sample_world [], Ok "collect src") /\
  toy_parse_request "collect src" (sample_world ([] : console))
  = (sample_world [],
     Ok (Some [("method", VStr "collect"); ("params", VList [VStr "src"])])) /\
  is_exit [("method", VStr "collect"); ("params", VList [VStr "src"])] = false /\
  iteration scripted_input toy_parse_request
    (failing_handle_command (new_exn KeyboardInterrupt ""))
    (sample_world [Ok "collect src"])
  = (sample_world [],
     [EvInput "> "; EvParseRequest "collect src";
      EvHandleCommand [("method", VStr "collect"); ("params", VList [VStr "src"])]],
     Ok Break).
Proof. repeat split. Qed.

Lemma render_prints_one_branch_witness :
  render [("error", VDict [("code", VInt (-32601));
                           ("message", VStr "Method not found")])]
    (sample_world tt)
  = (sample_world tt, [EvPrint "Error: Method not found"], Ok tt).
Proof.
  destruct (render_prints_one_branch
              [("error", VDict [("code", VInt (-32601));
                                ("message", VStr "Method not found")])]
              (sample_world tt) eq_refl
              (fun err H =>
                 ex_intro _ [("code", VInt (-32601));
                             ("message", VStr "Method not found")]
                   (ex_intro _ "Method not found"
                      (conj (eq_sym (f_equal (fun o => match o with
                                                       | Some v => v
                                                       | None => err
                                                       end) H))
                            eq_refl))))
    as [(d & m & Herr & Hm & _ & Hr) | (r & Herr & _)].
  - injection Herr as <-. injection Hm as <-. exact Hr.
  - discriminate Herr.
Defined.

Lemma unparsed_line_prints_notice_witness :
  iteration scripted_input toy_parse_request toy_handle_command
    (sample_world [Ok "  "; Ok "exit"])
  = (sample_world [Ok "exit"],
     [EvInput "> "; EvParseRequest "  "; EvPrint "Invalid command format"],
     Ok Continue).
Proof.
  apply (proj1 (unparsed_line_prints_notice scripted_input toy_parse_request
                  toy_handle_command (sample_world [Ok "  "; Ok "exit"])
                  (sample_world [Ok "exit"]) (sample_world [Ok "exit"]) "  " 0
                  eq_refl ltac:(discriminate) eq_refl)).
Defined.

Lemma empty_line_reprompts_witness :
  iteration scripted_input toy_parse_request toy_handle_command
    (sample_world [Ok ""; Ok "exit"])
  = (sample_world [Ok "exit"], [EvInput "> "], Ok Continue).
Proof.
  apply (proj1 (empty_line_reprompts scripted_input toy_parse_request
                  toy_handle_command (sample_world [Ok ""; Ok "exit"])
                  (sample_world [Ok "exit"]) 0 eq_refl)).
Defined.

(** * Further properties *)

(** ** get_project_root: what it leaves alone *)

(** X1: get_project_root changes nothing but MCP_PROJECT_ROOT: every
    other environment variable, the working directory and the state of
    the collaborators are as before. *)
Theorem get_project_root_frame {X} (w : world X) (key : string) :
  key <> "MCP_PROJECT_ROOT" ->
  environ (world_of (get_project_root w)) !! key = environ w !! key /\
  getcwd (world_of (get_project_root w)) = getcwd w /\
  ext (world_of (get_project_root w)) = ext w.
Proof.
  intros Hkey.
  destruct (get_project_root_cases w)
    as [(e & _ & ->) | [(dir & s & _ & _ & _ & ->) | (dir & _ & _ & ->)]];
    unfold world_of; cbn [fst snd environ getcwd ext]; auto.
  rewrite lookup_insert_ne by congruence. auto.
Qed.

Lemma get_project_root_frame_witness :
  environ (world_of (get_project_root
                       (mk_world {["HOME" := "/home/dev"]} (Ok "/tmp") tt)))
    !! "HOME"
  = Some "/home/dev".
Proof.
  rewrite (proj1 (get_project_root_frame
                    (mk_world {["HOME" := "/home/dev"]} (Ok "/tmp") tt) "HOME"
                    ltac:(discriminate))).
  reflexivity.
Defined.

(** X2: get_project_root logs (one INFO record, with the directory as
    argument) exactly when it writes MCP_PROJECT_ROOT, that is when
    Path.cwd() returned and the variable was unset or empty. When the
    variable holds a non-empty string, and when Path.cwd() raises, it
    emits nothing and leaves the world as it found it. *)
Theorem get_project_root_logs_iff_writes {X} (w : world X) :
  (trace_of (get_project_root w) = [] /\ world_of (get_project_root w) = w /\
   ((exists dir s, getcwd w = Ok dir /\
                   environ w !! "MCP_PROJECT_ROOT" = Some s /\ s <> "") \/
    (exists e, getcwd w = Raise e /\ value_of (get_project_root w) = Raise e)))
  \/
  (exists dir,
     getcwd w = Ok dir /\
     trace_of (get_project_root w)
     = [EvLog INFO "Set MCP_PROJECT_ROOT to: %s" [VPath (Path_of_str dir)] None] /\
     environ (world_of (get_project_root w)) !! "MCP_PROJECT_ROOT"
     = Some (str_of_Path (Path_of_str dir)) /\
     (environ w !! "MCP_PROJECT_ROOT" = None \/
      environ w !! "MCP_PROJECT_ROOT" = Some "")).
Proof.
  destruct (get_project_root_cases w)
    as [(e & Hcwd & ->) | [(dir & s & Hcwd & Hget & Hne & ->)
                          | (dir & Hcwd & Hunset & ->)]].
  - left. repeat split. right. exists e. auto.
  - left. repeat split. left. exists dir, s. auto.
  - right. exists dir. unfold world_of, trace_of; cbn [fst snd environ].
    rewrite lookup_insert_eq. auto.
Qed.

(** X3: when the module is imported and Path.cwd() returns, the
    project_root string handed to JsonRpcTerminal is never empty, it
    names the path get_project_root resolved, and by the time the
    constructor runs MCP_PROJECT_ROOT holds a string that names the same
    path. When Path.cwd() raises, the import raises that exception and
    the constructor is not run. *)
Theorem terminal_project_root {X T}
    (JsonRpcTerminal : string -> world X -> world X * result T) (w : world X) :
  (forall dir, getcwd w = Ok dir ->
     exists project_root v,
       project_root <> "" /\
       value_of (get_project_root w) = Ok (Path_of_str project_root) /\
       environ (world_of (get_project_root w)) !! "MCP_PROJECT_ROOT" = Some v /\
       Path_of_str v = Path_of_str project_root /\
       terminal JsonRpcTerminal w
       = after (trace_of (get_project_root w))
           (match JsonRpcTerminal project_root (world_of (get_project_root w)) with
            | (w', r) => (w', [], r)
            end)) /\
  (forall e, getcwd w = Raise e ->
     terminal JsonRpcTerminal w = (w, [], Raise e)).
Proof.
  split.
  - intros dir Hcwd.
    assert (Hcases : exists v,
      value_of (get_project_root w) = Ok (Path_of_str v) /\
      environ (world_of (get_project_root w)) !! "MCP_PROJECT_ROOT" = Some v).
    { destruct (get_project_root_cases w)
        as [(e & Hcwd' & _) | [(dir' & s & _ & Hget & Hne & ->)
                              | (dir' & _ & _ & ->)]].
      - congruence.
      - exists s. auto.
      - exists (str_of_Path (Path_of_str dir')).
        unfold value_of, world_of; cbn [fst snd environ].
        rewrite Path_roundtrip, lookup_insert_eq. auto. }
    destruct Hcases as (v & Hval & Hv).
    exists (str_of_Path (Path_of_str v)), v.
    split; [apply str_of_Path_nonempty|].
    split; [rewrite Path_roundtrip; exact Hval|].
    split; [exact Hv|]. split; [symmetry; apply Path_roundtrip|].
    unfold terminal, bind. unfold value_of, world_of, trace_of in *.
    destruct (get_project_root w) as [[w0 tr0] r]. cbn [fst snd] in *. subst r.
    destruct (JsonRpcTerminal (str_of_Path (Path_of_str v)) w0) as [w' r'].
    unfold after. rewrite app_nil_r. reflexivity.
  - intros e Hcwd. unfold terminal, bind.
    rewrite (get_project_root_no_cwd w e Hcwd). reflexivity.
Qed.

Lemma terminal_project_root_witness :
  terminal (fun project_root w => (w, Ok project_root))
    (homeless_world {["MCP_PROJECT_ROOT" := "/srv/app"]} tt)
  = (homeless_world {["MCP_PROJECT_ROOT" := "/srv/app"]} tt, [], Raise cwd_gone).
Proof.
  apply (proj2 (terminal_project_root (fun project_root w => (w, Ok project_root))
                  (homeless_world {["MCP_PROJECT_ROOT" := "/srv/app"]} tt))
           cwd_gone eq_refl).
Defined.

(** ** code_collector: the other clauses, and what it never does *)

(** The outcome of the [except] clauses, clause by clause. *)
Lemma code_collector_except_cases {X} (e : raised) (w : world X) :
  code_collector_except e w
  = if isinstance e FileNotFoundError || isinstance e PermissionError
       || isinstance e OSError then
      match str_of_raised e with
      | Ok shown =>
          (w, [EvLog WARNING ("File system error collecting code: " +:+ shown)
                 [] None],
           Ok ("File system error collecting code: " +:+ shown))
      | Raise e' => (w, [], Raise e')
      end
    else if isinstance e ValueError then
      match str_of_raised e with
      | Ok shown =>
          (w, [EvLog WARNING ("Invalid input: " +:+ shown) [] None],
           Ok ("Invalid input: " +:+ shown))
      | Raise e' => (w, [], Raise e')
      end
    else if isinstance e TypeError then
      match str_of_raised e with
      | Ok shown =>
          (w, [EvLog WARNING ("Type error: " +:+ shown) [] None],
           Ok ("Type error: " +:+ shown))
      | Raise e' => (w, [], Raise e')
      end
    else if isinstance e Exception then
      match str_of_raised e with
      | Ok shown =>
          (w, [EvLog ERROR ("Unexpected error collecting code: " +:+ shown) []
                 (Some e)],
           Ok "An unexpected error occurred. Check server logs.")
      | Raise e' => (w, [], Raise e')
      end
    else (w, [], Raise e).
Proof.
  unfold code_collector_except.
  destruct (isinstance e FileNotFoundError || isinstance e PermissionError
            || isinstance e OSError);
    [unfold_monad; destruct (str_of_raised e); reflexivity|].
  destruct (isinstance e ValueError);
    [unfold_monad; destruct (str_of_raised e); reflexivity|].
  destruct (isinstance e TypeError);
    [unfold_monad; destruct (str_of_raised e); reflexivity|].
  destruct (isinstance e Exception);
    [unfold_monad; destruct (str_of_raised e); reflexivity|].
  reflexivity.
Qed.

Lemma trace_of_triple {X A} (w : world X) tr (r : result A) :
  trace_of (w, tr, r) = tr.
Proof. reflexivity. Qed.

Ltac norm_trace :=
  repeat first [rewrite <- app_assoc | progress cbn [app]].

Lemma code_collector_except_quiet {X} (e : raised) (w : world X) :
  List.filter is_service_call (trace_of (code_collector_except e w)) = [].
Proof.
  rewrite code_collector_except_cases.
  destruct (isinstance e FileNotFoundError || isinstance e PermissionError
            || isinstance e OSError);
    [destruct (str_of_raised e); reflexivity|].
  destruct (isinstance e ValueError);
    [destruct (str_of_raised e); reflexivity|].
  destruct (isinstance e TypeError);
    [destruct (str_of_raised e); reflexivity|].
  destruct (isinstance e Exception);
    [destruct (str_of_raised e); reflexivity|].
  reflexivity.
Qed.

Lemma get_project_root_quiet {X} (w : world X) :
  List.filter is_service_call (trace_of (get_project_root w)) = [].
Proof.
  destruct (get_project_root_cases w)
    as [(e & _ & ->) | [(dir & s & _ & _ & _ & ->) | (dir & _ & _ & ->)]];
    reflexivity.
Qed.

(** The exceptions the [except] clauses of [code_collector] have a
    clause for. *)
Definition has_clause (e : raised) : bool :=
  isinstance e FileNotFoundError || isinstance e PermissionError
  || isinstance e OSError || isinstance e ValueError || isinstance e TypeError
  || isinstance e Exception.

Lemma code_collector_except_raise_inv {X} (e0 e' : raised) (w : world X) :
  value_of (code_collector_except e0 w) = Raise e' ->
  (e' = e0 /\ has_clause e0 = false) \/
  (has_clause e0 = true /\ str_of_raised e0 = Raise e').
Proof.
  rewrite code_collector_except_cases. unfold has_clause.
  destruct (isinstance e0 FileNotFoundError || isinstance e0 PermissionError
            || isinstance e0 OSError) eqn:Hfs.
  { destruct (str_of_raised e0); [discriminate|]. intros [= ->]. auto. }
  destruct (isinstance e0 ValueError) eqn:Hv.
  { destruct (str_of_raised e0); [discriminate|]. intros [= ->]. auto. }
  destruct (isinstance e0 TypeError) eqn:Ht.
  { destruct (str_of_raised e0); [discriminate|]. intros [= ->]. auto. }
  destruct (isinstance e0 Exception) eqn:He.
  { destruct (str_of_raised e0); [discriminate|]. intros [= ->]. auto. }
  intros [= <-]. auto.
Qed.

Section CollectorFurther.
Context {X Collector : Type}.
Variable CodeCollector :
  Path -> option string -> world X -> world X * result Collector.
Variable collect_code :
  Collector -> input_path_t -> string -> world X -> world X * result pyval.

Local Abbreviation entry := (code_collector CodeCollector collect_code).
Local Abbreviation outcome := (collection_outcome CodeCollector collect_code).

(** Every way through [code_collector], with the events up to the point
    where the [try] block is left. *)
Lemma code_collector_cases input title sub (w : world X) :
  let logged :=
    [EvLog DEBUG "Tool call: code-collector" [] None;
     EvLog DEBUG "Arguments: input=%s, title=%s, subproject_id=%s"
       [pyval_of_input_path input; VStr title; pyval_of_opt_str sub] None] in
  match get_project_root w with
  | (w0, tr0, Raise e) =>
      entry input title sub w = after (logged ++ tr0) (code_collector_except e w0)
  | (w0, tr0, Ok root) =>
      let pre := logged ++ tr0 ++ [EvCodeCollector root sub] in
      let called :=
        pre ++ [EvLog INFO "Starting code collection" [] None;
                EvLog DEBUG "Input: %s" [pyval_of_input_path input] None;
                EvLog DEBUG "Title: %s" [VStr title] None;
                EvLog DEBUG "Subproject ID: %s" [pyval_of_opt_str sub] None;
                EvCollectCode input title] in
      match CodeCollector root sub w0 with
      | (w1, Raise e) =>
          entry input title sub w = after pre (code_collector_except e w1)
      | (w1, Ok c) =>
          match collect_code c input title w1 with
          | (w2, Raise e) =>
              entry input title sub w
              = after called (code_collector_except e w2)
          | (w2, Ok out) =>
              if py_truthy out then
                match py_str out with
                | Ok shown =>
                    entry input title sub w
                    = (w2, called,
                       Ok ("Code collection complete!" +:+ nl
                           +:+ "Output file: " +:+ shown))
                | Raise e =>
                    entry input title sub w
                    = after called (code_collector_except e w2)
                end
              else
                entry input title sub w
                = (w2, called, Ok "No files found to process or error occurred")
          end
      end
  end.
Proof.
  cbv zeta. unfold code_collector. unfold_monad.
  destruct (get_project_root w) as [[w0 tr0] [root|e0]]; cbv beta iota.
  - destruct (CodeCollector root sub w0) as [w1 [c|e]]; cbv beta iota.
    + destruct (collect_code c input title w1) as [w2 [out|e]]; cbv beta iota.
      * destruct (py_truthy out); cbn [negb]; cbv beta iota.
        -- destruct (py_str out) as [shown|e]; cbv beta iota.
           ++ f_equal. f_equal. cbn [app]. rewrite <- !app_assoc. reflexivity.
           ++ destruct (code_collector_except e w2) as [[w3 tr3] r3].
              unfold after. cbn [app]. rewrite <- !app_assoc. reflexivity.
        -- f_equal. f_equal. cbn [app]. rewrite <- !app_assoc. reflexivity.
      * destruct (code_collector_except e w2) as [[w3 tr3] r3].
        unfold after. cbn [app]. rewrite <- !app_assoc. reflexivity.
    + destruct (code_collector_except e w1) as [[w3 tr3] r3].
      unfold after. cbn [app]. rewrite <- !app_assoc. reflexivity.
  - destruct (code_collector_except e0 w0) as [[w3 tr3] r3].
    unfold after. cbn [app]. rewrite <- ?app_assoc. reflexivity.
Qed.

(** X4: a ValueError of the collection service (one that is not also an
    OSError) is answered with Invalid input: followed by str(e). *)
Theorem code_collector_invalid_input input title sub (w w' : world X)
    (e : exn) :
  outcome input title sub w = (w', Raise e) ->
  isinstance e FileNotFoundError || isinstance e PermissionError
    || isinstance e OSError = false ->
  isinstance e ValueError = true ->
  value_of (entry input title sub w) = Ok ("Invalid input: " +:+ exn_str e).
Proof.
  intros Hout Hfs Hv.
  destruct (code_collector_raised _ _ _ _ _ _ _ _ Hout) as [tr ->].
  rewrite value_of_after, code_collector_except_cases, Hfs, Hv. reflexivity.
Qed.

(** X5: a TypeError of the collection service (one that is neither an
    OSError nor a ValueError) is answered with Type error: followed by
    str(e). *)
Theorem code_collector_type_error input title sub (w w' : world X)
    (e : exn) :
  outcome input title sub w = (w', Raise e) ->
  isinstance e FileNotFoundError || isinstance e PermissionError
    || isinstance e OSError = false ->
  isinstance e ValueError = false ->
  isinstance e TypeError = true ->
  value_of (entry input title sub w) = Ok ("Type error: " +:+ exn_str e).
Proof.
  intros Hout Hfs Hv Ht.
  destruct (code_collector_raised _ _ _ _ _ _ _ _ Hout) as [tr ->].
  rewrite value_of_after, code_collector_except_cases, Hfs, Hv, Ht.
  reflexivity.
Qed.

(** X6: for the expected failures (OSError and its subclasses,
    ValueError, TypeError) the string code_collector returns is also the
    last record it logs, at level WARNING and without the exception
    attached. *)
Theorem code_collector_expected_failure_logged input title sub
    (w w' : world X) (e : exn) :
  outcome input title sub w = (w', Raise e) ->
  isinstance e FileNotFoundError || isinstance e PermissionError
    || isinstance e OSError || isinstance e ValueError
    || isinstance e TypeError = true ->
  exists msg tr,
    value_of (entry input title sub w) = Ok msg /\
    trace_of (entry input title sub w) = tr ++ [EvLog WARNING msg [] None].
Proof.
  intros Hout Hexp.
  destruct (code_collector_raised _ _ _ _ _ _ _ _ Hout) as [tr ->].
  rewrite value_of_after, trace_of_after, code_collector_except_cases.
  cbn [str_of_raised].
  destruct (isinstance e FileNotFoundError || isinstance e PermissionError
            || isinstance e OSError); [eexists _, tr; split; reflexivity|].
  destruct (isinstance e ValueError); [eexists _, tr; split; reflexivity|].
  destruct (isinstance e TypeError); [eexists _, tr; split; reflexivity|].
  discriminate Hexp.
Qed.

(** An exception raised inside the [try] block of [code_collector]: by
    get_project_root, the constructor or collect_code, or by str() of the
    value collect_code returned. *)
Definition raised_in_try input title sub (w : world X) (e : raised) : Prop :=
  snd (outcome input title sub w) = Raise e \/
  exists out,
    snd (outcome input title sub w) = Ok out /\
    py_truthy out = true /\ py_str out = Raise e.

(** X7: an exception leaves code_collector in two ways only: it was
    raised inside the try block and no except clause is for it (it is an
    instance of none of OSError, FileNotFoundError, PermissionError,
    ValueError, TypeError and Exception), or it was raised by str(e)
    while the clause for an exception e raised inside the try block was
    formatting its message. So when str() returns on every exception
    raised inside the try block, no instance of these classes leaves
    code_collector. *)
Theorem code_collector_escapes input title sub (w : world X) (e' : raised) :
  value_of (entry input title sub w) = Raise e' ->
  ((raised_in_try input title sub w e' /\ has_clause e' = false) \/
   (exists e, raised_in_try input title sub w e /\ has_clause e = true /\
              str_of_raised e = Raise e')) /\
  ((forall e, raised_in_try input title sub w e ->
      exists shown, str_of_raised e = Ok shown) ->
   has_clause e' = false).
Proof.
  intros Hraise.
  assert (Hways :
    (raised_in_try input title sub w e' /\ has_clause e' = false) \/
    (exists e, raised_in_try input title sub w e /\ has_clause e = true /\
               str_of_raised e = Raise e')).
  { pose proof (code_collector_cases input title sub w) as Hcases.
    cbv zeta in Hcases. unfold raised_in_try, collection_outcome.
    destruct (get_project_root w) as [[w0 tr0] [root|e0]].
    - destruct (CodeCollector root sub w0) as [w1 [c|e1]].
      + destruct (collect_code c input title w1) as [w2 [out|e2]].
        * destruct (py_truthy out) eqn:Htruthy.
          -- destruct (py_str out) as [shown|e3] eqn:Hstr;
               rewrite Hcases in Hraise; [discriminate Hraise|].
             rewrite value_of_after in Hraise.
             apply code_collector_except_raise_inv in Hraise
               as [[-> Hno] | [Hyes Hs]].
             ++ left. split; [|exact Hno]. right. exists out. auto.
             ++ right. exists e3. split; [|auto]. right. exists out. auto.
          -- rewrite Hcases in Hraise. discriminate Hraise.
        * rewrite Hcases, value_of_after in Hraise.
          apply code_collector_except_raise_inv in Hraise
            as [[-> Hno] | [Hyes Hs]].
          -- left. split; [left; reflexivity | exact Hno].
          -- right. exists e2. split; [left; reflexivity | auto].
      + rewrite Hcases, value_of_after in Hraise.
        apply code_collector_except_raise_inv in Hraise
          as [[-> Hno] | [Hyes Hs]].
        * left. split; [left; reflexivity | exact Hno].
        * right. exists e1. split; [left; reflexivity | auto].
    - rewrite Hcases, value_of_after in Hraise.
      apply code_collector_except_raise_inv in Hraise
        as [[-> Hno] | [Hyes Hs]].
      + left. split; [left; reflexivity | exact Hno].
      + right. exists e0. split; [left; reflexivity | auto]. }
  split; [exact Hways|].
  intros Hprintable. destruct Hways as [[_ Hno] | (e & Hin & _ & Hstr)];
    [exact Hno|].
  destruct (Hprintable e Hin) as [shown Hshown]. congruence.
Qed.

(** X8: the calls code_collector makes into the collection service are,
    in this order: none when get_project_root raises; otherwise one
    construction of CodeCollector, with the root get_project_root
    returned and the caller's subproject_id, followed, when the
    constructor returned, by one call of collect_code with the caller's
    input_path and title. Nothing is called twice. *)
Theorem code_collector_service_calls input title sub (w : world X) :
  List.filter is_service_call (trace_of (entry input title sub w))
  = match get_project_root w with
    | (w0, _, Ok root) =>
        EvCodeCollector root sub
        :: match CodeCollector root sub w0 with
           | (_, Ok _) => [EvCollectCode input title]
           | (_, Raise _) => []
           end
    | (_, _, Raise _) => []
    end.
Proof.
  pose proof (code_collector_cases input title sub w) as Hcases.
  cbv zeta in Hcases.
  pose proof (get_project_root_quiet w) as Hquiet.
  destruct (get_project_root w) as [[w0 tr0] [root|e0]];
    unfold trace_of in Hquiet; cbn [fst snd] in Hquiet.
  - assert (Hpre : forall rest,
      List.filter is_service_call
        (EvLog DEBUG "Tool call: code-collector" [] None
         :: EvLog DEBUG "Arguments: input=%s, title=%s, subproject_id=%s"
              [pyval_of_input_path input; VStr title; pyval_of_opt_str sub] None
         :: tr0 ++ EvCodeCollector root sub :: rest)
      = EvCodeCollector root sub :: List.filter is_service_call rest).
    { intros rest. cbn [List.filter is_service_call].
      rewrite List.filter_app, Hquiet. reflexivity. }
    destruct (CodeCollector root sub w0) as [w1 [c|e1]].
    + destruct (collect_code c input title w1) as [w2 [out|e2]];
        [destruct (py_truthy out); [destruct (py_str out) as [shown|e3]|]|];
        rewrite Hcases; rewrite ?trace_of_after, ?trace_of_triple; norm_trace;
        rewrite Hpre; cbn [List.filter is_service_call];
        rewrite ?code_collector_except_quiet; reflexivity.
    + rewrite Hcases, trace_of_after. norm_trace.
      rewrite Hpre, code_collector_except_quiet. reflexivity.
  - rewrite Hcases, trace_of_after, !List.filter_app, Hquiet,
      code_collector_except_quiet. reflexivity.
Qed.

(** X9: when Path.cwd() returns, the first thing code_collector does
    after logging the call is to construct the CodeCollector, with
    Path(MCP_PROJECT_ROOT) when that variable holds a non-empty string and
    with the working directory (which it then records) otherwise. When
    Path.cwd() raises, nothing is constructed and the exception goes to
    the except clauses like any other raised in the try block. *)
Theorem code_collector_project_root input title sub (w : world X) :
  (forall dir s,
     getcwd w = Ok dir ->
     environ w !! "MCP_PROJECT_ROOT" = Some s -> s <> "" ->
     exists rest,
       trace_of (entry input title sub w)
       = [EvLog DEBUG "Tool call: code-collector" [] None;
          EvLog DEBUG "Arguments: input=%s, title=%s, subproject_id=%s"
            [pyval_of_input_path input; VStr title; pyval_of_opt_str sub] None;
          EvCodeCollector (Path_of_str s) sub] ++ rest) /\
  (forall dir,
     getcwd w = Ok dir ->
     environ w !! "MCP_PROJECT_ROOT" = None \/
     environ w !! "MCP_PROJECT_ROOT" = Some "" ->
     exists rest,
       trace_of (entry input title sub w)
       = [EvLog DEBUG "Tool call: code-collector" [] None;
          EvLog DEBUG "Arguments: input=%s, title=%s, subproject_id=%s"
            [pyval_of_input_path input; VStr title; pyval_of_opt_str sub] None;
          EvLog INFO "Set MCP_PROJECT_ROOT to: %s"
            [VPath (Path_of_str dir)] None;
          EvCodeCollector (Path_of_str dir) sub] ++ rest) /\
  (forall e,
     getcwd w = Raise e ->
     entry input title sub w
     = after [EvLog DEBUG "Tool call: code-collector" [] None;
              EvLog DEBUG "Arguments: input=%s, title=%s, subproject_id=%s"
                [pyval_of_input_path input; VStr title; pyval_of_opt_str sub]
                None]
         (code_collector_except e w)).
Proof.
  pose proof (code_collector_cases input title sub w) as Hcases.
  cbv zeta in Hcases.
  assert (Hpre : forall w0 tr0 root,
    get_project_root w = (w0, tr0, Ok root) ->
    exists rest,
      trace_of (entry input title sub w)
      = EvLog DEBUG "Tool call: code-collector" [] None
        :: EvLog DEBUG "Arguments: input=%s, title=%s, subproject_id=%s"
             [pyval_of_input_path input; VStr title; pyval_of_opt_str sub] None
        :: tr0 ++ EvCodeCollector root sub :: rest).
  { intros w0 tr0 root Hroot. rewrite Hroot in Hcases.
    destruct (CodeCollector root sub w0) as [w1 [c|e1]].
    - destruct (collect_code c input title w1) as [w2 [out|e2]];
        [destruct (py_truthy out); [destruct (py_str out) as [shown|e3]|]|];
        rewrite Hcases; rewrite ?trace_of_after, ?trace_of_triple; norm_trace;
        eexists; reflexivity.
    - rewrite Hcases, trace_of_after. norm_trace. eexists; reflexivity. }
  split; [|split].
  - intros dir s Hcwd Hget Hne.
    destruct (Hpre _ _ _ (get_project_root_set w dir s Hcwd Hget Hne))
      as [rest ->].
    exists rest. reflexivity.
  - intros dir Hcwd Hunset.
    destruct (Hpre _ _ _ (get_project_root_unset w dir Hcwd Hunset))
      as [rest ->].
    exists rest. reflexivity.
  - intros e Hcwd. rewrite (get_project_root_no_cwd w e Hcwd) in Hcases.
    rewrite Hcases, app_nil_r. reflexivity.
Qed.

End CollectorFurther.

Lemma code_collector_invalid_input_witness :
  value_of (code_collector (stub_CodeCollector (Ok tt))
              (stub_collect_code (Raise (new_exn ValueError "Path is outside the project")))
              (OnePath "../secret") "Code Collection" None (sample_world tt))
  = Ok "Invalid input: Path is outside the project".
Proof.
  refine (code_collector_invalid_input
            (stub_CodeCollector (Ok tt))
            (stub_collect_code (Raise (new_exn ValueError "Path is outside the project")))
            (OnePath "../secret") "Code Collection" None (sample_world tt)
            (world_of (get_project_root (sample_world tt)))
            (new_exn ValueError "Path is outside the project") _ _ _);
    reflexivity.
Defined.

Lemma code_collector_type_error_witness :
  value_of (code_collector (stub_CodeCollector (Raise (new_exn TypeError "expected str")))
              (stub_collect_code (Ok VNone))
              (PathList ["a"; "b"]) "Code Collection" (Some "sub") (sample_world tt))
  = Ok "Type error: expected str".
Proof.
  refine (code_collector_type_error
            (stub_CodeCollector (Raise (new_exn TypeError "expected str")))
            (stub_collect_code (Ok VNone))
            (PathList ["a"; "b"]) "Code Collection" (Some "sub") (sample_world tt)
            (world_of (get_project_root (sample_world tt)))
            (new_exn TypeError "expected str") _ _ _ _);
    reflexivity.
Defined.

Lemma code_collector_expected_failure_logged_witness :
  exists msg tr,
    value_of (code_collector (stub_CodeCollector (Ok tt))
                (stub_collect_code (Raise (UnsupportedOperation "not readable")))
                (OnePath "src") "Code Collection" None (sample_world tt))
    = Ok msg /\
    trace_of (code_collector (stub_CodeCollector (Ok tt))
                (stub_collect_code (Raise (UnsupportedOperation "not readable")))
                (OnePath "src") "Code Collection" None (sample_world tt))
    = tr ++ [EvLog WARNING msg [] None].
Proof.
  refine (code_collector_expected_failure_logged
            (stub_CodeCollector (Ok tt))
            (stub_collect_code (Raise (UnsupportedOperation "not readable")))
            (OnePath "src") "Code Collection" None (sample_world tt)
            (world_of (get_project_root (sample_world tt)))
            (UnsupportedOperation "not readable") _ _);
    reflexivity.
Defined.

Lemma code_collector_escapes_witness :
  has_clause CancelledError = false.
Proof.
  refine (proj2 (code_collector_escapes
                   (stub_CodeCollector (Ok tt))
                   (stub_collect_code (Raise CancelledError))
                   (OnePath "src") "Code Collection" None (sample_world tt)
                   CancelledError _) _).
  - reflexivity.
  - intros e [H | (out & H & _)]; [|discriminate H].
    injection H as <-. exists "". reflexivity.
Defined.

Lemma code_collector_project_root_witness :
  value_of (code_collector (stub_CodeCollector (Ok tt))
              (stub_collect_code (Ok VNone))
              (OnePath "src") "Code Collection" None
              (homeless_world {["MCP_PROJECT_ROOT" := "/srv/app"]} tt))
  = Ok "File system error collecting code: [Errno 2] No such file or directory".
Proof.
  rewrite (proj2 (proj2 (code_collector_project_root
                           (stub_CodeCollector (Ok tt))
                           (stub_collect_code (Ok VNone))
                           (OnePath "src") "Code Collection" None
                           (homeless_world {["MCP_PROJECT_ROOT" := "/srv/app"]} tt)))
             cwd_gone eq_refl).
  reflexivity.
Defined.

(** ** run_dev_mode: rendering *)

(** X10: whatever the response is, rendering it prints at most one line
    and does nothing else, and it prints nothing when formatting the
    payload raises. *)
Theorem render_at_most_one_line {X} (response : pydict) (w : world X) :
  (trace_of (render response w) = [] \/
   exists text, trace_of (render response w) = [EvPrint text]) /\
  (forall e, value_of (render response w) = Raise e ->
     trace_of (render response w) = []) /\
  world_of (render response w) = w.
Proof.
  destruct (render_cases response w) as [-> | [[text ->] | [e ->]]];
    (split; [|split]); try reflexivity; try (left; reflexivity).
  - right. exists text. reflexivity.
  - discriminate.
Qed.

(** X11: an error key that holds None counts as no error: the result is
    printed. *)
Theorem render_error_None_prints_result {X} (response : pydict) (r : pyval)
    (w : world X) :
  dict_get response "error" = Some VNone ->
  dict_get response "result" = Some r ->
  render response w = py_print r w.
Proof.
  intros Herr Hres. unfold render, has_error. rewrite Herr, Hres. reflexivity.
Qed.

Lemma render_error_None_prints_result_witness :
  render [("result", VStr "done"); ("error", VNone)] (sample_world tt)
  = (sample_world tt, [EvPrint "done"], Ok tt).
Proof.
  rewrite (render_error_None_prints_result
             [("result", VStr "done"); ("error", VNone)] (VStr "done")
             (sample_world tt) eq_refl eq_refl).
  reflexivity.
Defined.

(** X12: an error that is not None hides the result: what is rendered
    depends on the error alone, and when the error is not a dictionary
    with a message key nothing is printed at all, result or not. *)
Theorem render_error_hides_result {X} (response : pydict) (err : pyval)
    (w : world X) :
  dict_get response "error" = Some err ->
  is_None err = false ->
  render response w = render [("error", err)] w /\
  ((forall d, err = VDict d -> dict_get d "message" = None) ->
   render response w = (w, [], Ok tt)).
Proof.
  intros Herr Hnone. unfold render, has_error.
  assert (Hone : dict_get [("error", err)] "error" = Some err) by reflexivity.
  rewrite Hone, Herr, Hnone. cbn [negb]. split; [reflexivity|].
  intros Hmsg. destruct err as [| | | | | |d|]; try reflexivity.
  rewrite (Hmsg d eq_refl). reflexivity.
Qed.

Lemma render_error_hides_result_witness :
  render [("result", VStr "done"); ("error", VStr "boom")] (sample_world tt)
  = (sample_world tt, [], Ok tt).
Proof.
  apply (proj2 (render_error_hides_result
                  [("result", VStr "done"); ("error", VStr "boom")]
                  (VStr "boom") (sample_world tt) eq_refl eq_refl)).
  intros d H. discriminate H.
Defined.

(** ** run_dev_mode: turns and sessions *)

Lemma run_dev_mode_except_quiet {X} (e : raised) (w : world X) :
  List.filter is_terminal_call (trace_of (run_dev_mode_except e w)) = [].
Proof.
  rewrite run_dev_mode_except_cases.
  destruct (is_signal e); [reflexivity|].
  destruct (isinstance e ValueError);
    [destruct (str_of_raised e); reflexivity|].
  destruct (isinstance e TypeError);
    [destruct (str_of_raised e); reflexivity|].
  destruct (isinstance e Exception);
    [destruct (str_of_raised e); reflexivity|].
  reflexivity.
Qed.

Lemma render_quiet {X} (response : pydict) (w : world X) :
  List.filter is_terminal_call (trace_of (render response w)) = [].
Proof.
  destruct (render_cases response w)
    as [-> | [[text ->] | [e ->]]]; reflexivity.
Qed.

Section TerminalFurther.
Context {X : Type}.
Variable py_input : string -> world X -> world X * result string.
Variable parse_request : string -> world X -> world X * result (option pydict).
Variable handle_command : pydict -> world X -> world X * result pydict.

Local Abbreviation body := (loop_body py_input parse_request handle_command).
Local Abbreviation one_turn := (iteration py_input parse_request handle_command).
Local Abbreviation loop := (dev_loop py_input parse_request handle_command).
Local Abbreviation session := (run_dev_mode py_input parse_request handle_command).
Local Abbreviation course := (turn py_input parse_request handle_command).

(** X13: a ValueError raised anywhere in a turn (and that is no
    termination signal) makes the turn print Value error: and str(e), a
    TypeError that is no ValueError Type error: and str(e); nothing else
    is printed or logged in the turn, and the loop goes on. *)
Theorem turn_reports_value_and_type_errors (w : world X) ph (e : exn) :
  course w (Failed ph e) ->
  is_signal e = false ->
  (isinstance e ValueError = true ->
     value_of (one_turn w) = Ok Continue /\
     trace_of (one_turn w)
     = List.filter is_terminal_call (trace_of (one_turn w))
       ++ [EvPrint ("Value error: " +:+ exn_str e)]) /\
  (isinstance e ValueError = false -> isinstance e TypeError = true ->
     value_of (one_turn w) = Ok Continue /\
     trace_of (one_turn w)
     = List.filter is_terminal_call (trace_of (one_turn w))
       ++ [EvPrint ("Type error: " +:+ exn_str e)]).
Proof.
  intros Ht Hs.
  destruct (failed_turn _ _ _ w ph e Ht) as (w1 & calls & -> & Hcalls & _).
  rewrite value_of_after, trace_of_after, List.filter_app, Hcalls,
    run_dev_mode_except_quiet, app_nil_r, run_dev_mode_except_cases, Hs.
  cbn [str_of_raised]. split.
  - intros ->. split; reflexivity.
  - intros -> ->. split; reflexivity.
Qed.

(** X14: any other instance of Exception raised in a turn makes the turn
    print Unexpected error: and str(e) and then log one ERROR record with
    the exception attached; the loop goes on. *)
Theorem turn_reports_unexpected_error (w : world X) ph (e : exn) :
  course w (Failed ph e) ->
  is_signal e = false ->
  isinstance e ValueError = false ->
  isinstance e TypeError = false ->
  isinstance e Exception = true ->
  value_of (one_turn w) = Ok Continue /\
  trace_of (one_turn w)
  = List.filter is_terminal_call (trace_of (one_turn w))
    ++ [EvPrint ("Unexpected error: " +:+ exn_str e);
        EvLog ERROR "Unexpected error in developer mode" []
          (Some (Printable e))].
Proof.
  intros Ht Hs Hv Hty He.
  destruct (failed_turn _ _ _ w ph e Ht) as (w1 & calls & -> & Hcalls & _).
  rewrite value_of_after, trace_of_after, List.filter_app, Hcalls,
    run_dev_mode_except_quiet, app_nil_r, run_dev_mode_except_cases,
    Hs, Hv, Hty, He.
  split; reflexivity.
Qed.

(** X15: an empty dictionary returned by parse_request is treated like
    None: the notice is printed and handle_command is not called. *)
Theorem empty_request_prints_notice (w w1 w2 : world X) (line : string) :
  py_input "> " w = (w1, Ok line) ->
  line <> "" ->
  parse_request line w1 = (w2, Ok (Some [])) ->
  one_turn w
  = (w2, [EvInput "> "; EvParseRequest line; EvPrint "Invalid command format"],
     Ok Continue).
Proof.
  intros Hin Hne Hparse. pose proof (iteration_cases py_input parse_request handle_command w) as Hc.
  rewrite Hin in Hc.
  destruct (String.eqb_spec line "") as [?|_]; [contradiction|].
  rewrite Hparse in Hc. exact Hc.
Qed.

(** X16: an exit request is dispatched and its response rendered like any
    other, and only then is the loop left, whether the response carries a
    result or an error. *)
Theorem exit_is_dispatched_then_leaves (w w1 w2 w3 : world X) line request
    response (n : nat) :
  py_input "> " w = (w1, Ok line) ->
  line <> "" ->
  parse_request line w1 = (w2, Ok (Some request)) ->
  is_exit request = true ->
  handle_command request w2 = (w3, Ok response) ->
  value_of (render response w3) = Ok tt ->
  one_turn w
  = (w3,
     [EvInput "> "; EvParseRequest line; EvHandleCommand request]
     ++ trace_of (render response w3),
     Ok Break) /\
  loop (S n) w
  = (w3,
     [EvInput "> "; EvParseRequest line; EvHandleCommand request]
     ++ trace_of (render response w3),
     Ok (Some tt)).
Proof.
  intros Hin Hne Hparse Hexit Hcmd Hr.
  assert (Hturn : one_turn w
    = (w3, [EvInput "> "; EvParseRequest line; EvHandleCommand request]
           ++ trace_of (render response w3), Ok Break)).
  { pose proof (iteration_cases py_input parse_request handle_command w) as Hc. rewrite Hin in Hc.
    destruct (String.eqb_spec line "") as [?|_]; [contradiction|].
    rewrite Hparse in Hc.
    destruct request as [|item more]; [discriminate Hexit|].
    rewrite Hcmd in Hc.
    destruct (render_cases response w3)
      as [Hrd | [[text Hrd] | [e Hrd]]]; rewrite Hrd in Hc, Hr |- *;
      [| |discriminate Hr]; rewrite Hexit in Hc; exact Hc. }
  split; [exact Hturn|]. rewrite dev_loop_step, Hturn. reflexivity.
Qed.

(** X17: the calls a turn makes into its collaborators are, in this
    order, one input with the prompt, then parse_request on the line if
    the line is not empty, then handle_command on the dictionary
    parse_request returned if it is not empty; nothing is called twice
    and nothing else is called. *)
Theorem turn_calls (w : world X) :
  List.filter is_terminal_call (trace_of (one_turn w))
  = EvInput "> "
    :: match py_input "> " w with
       | (w1, Ok line) =>
           if String.eqb line "" then []
           else
             EvParseRequest line
             :: match parse_request line w1 with
                | (_, Ok (Some (item :: more))) =>
                    [EvHandleCommand (item :: more)]
                | _ => []
                end
       | (_, Raise _) => []
       end.
Proof.
  pose proof (iteration_cases py_input parse_request handle_command w) as Hc.
  destruct (py_input "> " w) as [w1 [line|e]].
  - destruct (String.eqb line ""); [rewrite Hc; reflexivity|].
    destruct (parse_request line w1) as [w2 [[[|item more]|]|e]];
      try (rewrite Hc; reflexivity).
    + destruct (handle_command (item :: more) w2) as [w3 [response|e]].
      * pose proof (render_quiet response w3) as Hq.
        destruct (render response w3) as [[w4 tr] [[]|e]];
          unfold trace_of in Hq; cbn [fst snd] in Hq; rewrite Hc;
          rewrite ?trace_of_after, ?trace_of_triple;
          rewrite ?List.filter_app; cbn [List.filter is_terminal_call];
          rewrite Hq, ?run_dev_mode_except_quiet; reflexivity.
      * rewrite Hc, trace_of_after, List.filter_app,
          run_dev_mode_except_quiet. reflexivity.
    + rewrite Hc, trace_of_after, List.filter_app,
        run_dev_mode_except_quiet. reflexivity.
  - rewrite Hc, trace_of_after, List.filter_app,
      run_dev_mode_except_quiet. reflexivity.
Qed.


(** The session around the loop. *)
Lemma run_dev_mode_by_loop (n : nat) (w : world X) :
  session n w
  = match loop n w with
    | (w', tr, Ok (Some _)) =>
        (w', banner ++ tr ++ [EvPrint (nl +:+ "Exiting developer mode")],
         Ok (Some tt))
    | (w', tr, Ok None) => (w', banner ++ tr, Ok None)
    | (w', tr, Raise e) => (w', banner ++ tr, Raise e)
    end.
Proof.
  unfold run_dev_mode. unfold_monad.
  destruct (loop n w) as [[w' tr] [[[]|]|e]]; unfold banner; cbn [app];
    rewrite ?app_nil_r; reflexivity.
Qed.

(** X18: end of input or an interrupt at the very first prompt ends the
    session quietly: after the three opening lines and the prompt, the
    only thing printed is the closing line. *)
Theorem session_ends_at_first_signal (w w1 : world X) e (n : nat) :
  py_input "> " w = (w1, Raise e) ->
  is_signal e = true ->
  session (S n) w
  = (w1,
     banner ++ [EvInput "> "; EvPrint (nl +:+ "Exiting developer mode")],
     Ok (Some tt)).
Proof.
  intros Hin Hs. rewrite run_dev_mode_by_loop, dev_loop_step.
  pose proof (iteration_cases py_input parse_request handle_command w) as Hc. rewrite Hin in Hc.
  rewrite Hc, run_dev_mode_except_cases, Hs. reflexivity.
Qed.

(** When run_dev_mode returns, what it did is the three opening
    lines, then the turns of the loop, then the closing line, printed
    last. *)
Theorem session_ends_with_closing_line (w : world X) (n : nat) :
  value_of (session n w) = Ok (Some tt) ->
  trace_of (session n w)
  = banner ++ trace_of (loop n w)
    ++ [EvPrint (nl +:+ "Exiting developer mode")] /\
  world_of (session n w) = world_of (loop n w).
Proof.
  rewrite run_dev_mode_by_loop.
  destruct (loop n w) as [[w' tr] [[[]|]|e]]; try discriminate.
  intros _. split; reflexivity.
Qed.






End TerminalFurther.

Lemma turn_reports_value_and_type_errors_witness :
  value_of (iteration scripted_input toy_parse_request
              (failing_handle_command (new_exn ValueError "no path given"))
              (sample_world [Ok "collect "]))
  = Ok Continue /\
  trace_of (iteration scripted_input toy_parse_request
              (failing_handle_command (new_exn ValueError "no path given"))
              (sample_world [Ok "collect "]))
  = List.filter is_terminal_call
      (trace_of (iteration scripted_input toy_parse_request
                   (failing_handle_command (new_exn ValueError "no path given"))
                   (sample_world [Ok "collect "])))
    ++ [EvPrint "Value error: no path given"].
Proof.
  apply (proj1 (turn_reports_value_and_type_errors scripted_input
                  toy_parse_request
                  (failing_handle_command (new_exn ValueError "no path given"))
                  (sample_world [Ok "collect "]) Dispatching
                  (new_exn ValueError "no path given")
                  ltac:(eapply turn_dispatch_fails;
                        [reflexivity | discriminate | reflexivity
                        | reflexivity | reflexivity])
                  eq_refl) eq_refl).
Defined.

Lemma turn_reports_unexpected_error_witness :
  value_of (iteration scripted_input
              (fun line w => (w, Raise (new_exn (UserClass "KeyError") "'id'")))
              toy_handle_command (sample_world [Ok "help"]))
  = Ok Continue.
Proof.
  apply (proj1 (turn_reports_unexpected_error scripted_input
                  (fun line w => (w, Raise (new_exn (UserClass "KeyError") "'id'")))
                  toy_handle_command (sample_world [Ok "help"]) Parsing
                  (new_exn (UserClass "KeyError") "'id'")
                  ltac:(eapply turn_parse_fails;
                        [reflexivity | discriminate | reflexivity])
                  eq_refl eq_refl eq_refl eq_refl)).
Defined.

Lemma empty_request_prints_notice_witness :
  iteration scripted_input (fun line w => (w, Ok (Some []))) toy_handle_command
    (sample_world [Ok "???"])
  = (sample_world [],
     [EvInput "> "; EvParseRequest "???"; EvPrint "Invalid command format"],
     Ok Continue).
Proof.
  apply (empty_request_prints_notice scripted_input
           (fun line w => (w, Ok (Some []))) toy_handle_command
           (sample_world [Ok "???"]) (sample_world []) (sample_world []) "???"
           eq_refl ltac:(discriminate) eq_refl).
Defined.

Lemma exit_is_dispatched_then_leaves_witness :
  dev_loop scripted_input toy_parse_request
    (fun request w =>
       (w, Ok [("error", VDict [("message", VStr "cannot exit now")])]))
    1 (sample_world [Ok "exit"; Ok "help"])
  = (sample_world [Ok "help"],
     [EvInput "> "; EvParseRequest "exit";
      EvHandleCommand [("method", VStr "exit")];
      EvPrint "Error: cannot exit now"],
     Ok (Some tt)).
Proof.
  apply (proj2 (exit_is_dispatched_then_leaves scripted_input toy_parse_request
                  (fun request w =>
                     (w, Ok [("error", VDict [("message", VStr "cannot exit now")])]))
                  (sample_world [Ok "exit"; Ok "help"])
                  (sample_world [Ok "help"]) (sample_world [Ok "help"])
                  (sample_world [Ok "help"]) "exit" [("method", VStr "exit")]
                  [("error", VDict [("message", VStr "cannot exit now")])] 0
                  eq_refl ltac:(discriminate) eq_refl eq_refl eq_refl eq_refl)).
Defined.

Lemma session_ends_at_first_signal_witness :
  run_dev_mode scripted_input toy_parse_request toy_handle_command 1
    (sample_world [])
  = (sample_world [],
     banner ++ [EvInput "> "; EvPrint (nl +:+ "Exiting developer mode")],
     Ok (Some tt)).
Proof.
  apply (session_ends_at_first_signal scripted_input toy_parse_request
           toy_handle_command (sample_world []) (sample_world [])
           (new_exn EOFError "EOF when reading a line") 0 eq_refl eq_refl).
Defined.

Lemma session_ends_with_closing_line_witness :
  trace_of (run_dev_mode scripted_input toy_parse_request toy_handle_command 3
              (sample_world [Ok "help"; Ok "exit"]))
  = banner
    ++ trace_of (dev_loop scripted_input toy_parse_request toy_handle_command 3
                   (sample_world [Ok "help"; Ok "exit"]))
    ++ [EvPrint (nl +:+ "Exiting developer mode")].
Proof.
  apply (proj1 (session_ends_with_closing_line scripted_input toy_parse_request
                  toy_handle_command (sample_world [Ok "help"; Ok "exit"]) 3
                  eq_refl)).
Defined.

